(** * Autonoma: the Chrome-extension creator front end and its debug service

    A shallow embedding of the TypeScript sources

    - [frontend-nextjs/src/components/chrome-extension/simple-extension-creator.tsx]
    - [frontend-nextjs/src/components/chrome-extension/extension-creator.tsx]
    - the debug service ([DebugService], [unnamed/part_001])
    - [backend/app/templates/chrome_extensions/popup_timer.json]

    JavaScript strings are sequences of UTF-16 code units, React state is an
    explicit record threaded through the handlers, [try]/[catch]/[finally] is
    a small exception-and-state monad, and everything the browser decides
    (the answer of [fetch], [localStorage], the clock, timer callbacks) is an
    explicit environment argument. *)

From Stdlib Require Import String Ascii DecimalString.
From Stdlib Require Import List ZArith NArith Lia Bool Permutation.
Import ListNotations.

Set Implicit Arguments.

(* ===================================================================== *)
(** ** JavaScript strings and arrays *)
(* ===================================================================== *)

Module Js.

(** A string value: its UTF-16 code units. *)
Definition jsstring := list N.

(** An ASCII source literal as a string value. *)
Definition lit (s : string) : jsstring :=
  map N_of_ascii (list_ascii_of_string s).

Definition jsstring_eq_dec : forall a b : jsstring, {a = b} + {a <> b} :=
  list_eq_dec N.eq_dec.

(** [a === b] on strings. *)
Fixpoint str_eqb (a b : jsstring) : bool :=
  match a, b with
  | [], [] => true
  | x :: a', y :: b' => N.eqb x y && str_eqb a' b'
  | _, _ => false
  end.

(** ECMAScript [WhiteSpace]: TAB, VT, FF, SP, NBSP, ZWNBSP and the
    Unicode space separators. *)
Definition isWhiteSpace (c : N) : bool :=
  (N.eqb c 9 || N.eqb c 11 || N.eqb c 12 || N.eqb c 32 || N.eqb c 160
   || N.eqb c 5760 || (N.leb 8192 c && N.leb c 8202)
   || N.eqb c 8239 || N.eqb c 8287 || N.eqb c 12288 || N.eqb c 65279)%bool.

(** ECMAScript [LineTerminator]: LF, CR, LS, PS. *)
Definition isLineTerminator (c : N) : bool :=
  (N.eqb c 10 || N.eqb c 13 || N.eqb c 8232 || N.eqb c 8233)%bool.

(** The code units that [String.prototype.trim] strips. *)
Definition isTrimmed (c : N) : bool := isWhiteSpace c || isLineTerminator c.

Fixpoint dropWhile {A} (p : A -> bool) (l : list A) : list A :=
  match l with
  | [] => []
  | x :: l' => if p x then dropWhile p l' else l
  end.

Definition trimStart (s : jsstring) : jsstring := dropWhile isTrimmed s.
Definition trimEnd (s : jsstring) : jsstring := rev (dropWhile isTrimmed (rev s)).

(** [s.trim()] *)
Definition trim (s : jsstring) : jsstring := trimEnd (trimStart s).

(** [Boolean(s)] for a string: only the empty string is falsy. *)
Definition truthy (s : jsstring) : bool :=
  match s with [] => false | _ :: _ => true end.

(** [s.split(sep)] for a one-code-unit separator: always at least one
    piece, the empty string splits into one empty piece. *)
Fixpoint split (sep : N) (s : jsstring) : list jsstring :=
  match s with
  | [] => [[]]
  | c :: s' =>
      if N.eqb c sep then [] :: split sep s'
      else match split sep s' with
           | p :: ps => (c :: p) :: ps
           | [] => [[c]]
           end
  end.

Definition comma : N := 44.

(** [arr.includes(x)] on an array of strings. *)
Definition includes (arr : list jsstring) (x : jsstring) : bool :=
  existsb (fun y => str_eqb y x) arr.

(** [arr.slice(start)]: a negative [start] counts from the end, and the
    resulting index is clamped to the array. *)
Definition slice_from {A} (start : Z) (arr : list A) : list A :=
  let len := Z.of_nat (length arr) in
  let k := if (start <? 0)%Z then Z.max (len + start) 0 else Z.min start len in
  skipn (Z.to_nat k) arr.

(** [arr.slice(0, n)] for a non-negative [n]. *)
Definition slice_to {A} (n : nat) (arr : list A) : list A := firstn n arr.

(** [arr.join(sep)] on an array of strings. *)
Fixpoint join (sep : jsstring) (arr : list jsstring) : jsstring :=
  match arr with
  | [] => []
  | [x] => x
  | x :: rest => x ++ sep ++ join sep rest
  end.

(** The head of a list, if any, fails [p]: nothing for [dropWhile] to
    take. *)
Definition head_kept {A} (p : A -> bool) (l : list A) : Prop :=
  match l with
  | [] => True
  | x :: _ => p x = false
  end.

(** A string that neither starts nor ends with a code unit that [trim]
    strips. *)
Definition clean (s : jsstring) : Prop :=
  head_kept isTrimmed s /\ head_kept isTrimmed (rev s).

(** A string made of code units that [trim] strips, the empty string
    included. *)
Definition whitespaceOnly (s : jsstring) : Prop :=
  Forall (fun c => isTrimmed c = true) s.

(** [core] is [piece] without the whitespace at its two ends: what is cut
    off is whitespace only, and what is left neither starts nor ends with
    whitespace. *)
Definition stripped (piece core : jsstring) : Prop :=
  exists l r,
    piece = l ++ core ++ r /\ whitespaceOnly l /\ whitespaceOnly r /\ clean core.

(** [String(n)] for a non-negative integer. *)
Definition of_N (n : N) : jsstring := lit (NilEmpty.string_of_uint (N.to_uint n)).

End Js.

Import Js.

(* ===================================================================== *)
(** ** The debug service *)
(* ===================================================================== *)

Module DebugService.

Inductive Level := info_l | warn_l | error_l | success_l.

(** [DebugEntry]; [data] is an opaque payload. *)
Record DebugEntry (D : Type) := mkEntry {
  timestamp : jsstring;
  level : Level;
  component : jsstring;
  message : jsstring;
  data : option D;
  stack : option jsstring
}.

Inductive Channel := console_log | console_warn | console_error.

(** The service object and the console it writes to. *)
Record Service (D : Type) := mkService {
  entries : list (DebugEntry D);
  console : list (Channel * jsstring * option D)
}.

(** [private maxEntries = 100], never assigned again. *)
Definition maxEntries : Z := 100.

Definition fresh (D : Type) : Service D := mkService [] [].

Definition upper (l : Level) : jsstring :=
  match l with
  | info_l => lit "INFO"
  | warn_l => lit "WARN"
  | error_l => lit "ERROR"
  | success_l => lit "SUCCESS"
  end.

(** What the runtime supplies to one call: [new Date().toISOString()]
    and [new Error().stack]. *)
Record Runtime := mkRuntime { now : jsstring; trace : option jsstring }.

Definition make_entry {D} (rt : Runtime) (l : Level) (c m : jsstring) (d : option D)
  : DebugEntry D :=
  mkEntry (now rt) l c m d
          (match l with error_l => trace rt | _ => None end).

(** The check-mark prefix of the success line, as UTF-16. *)
Definition check_mark : jsstring := [9989%N; 32%N].

Definition log {D} (rt : Runtime) (l : Level) (c m : jsstring) (d : option D)
           (s : Service D) : Service D :=
  let entry := make_entry rt l c m d in
  let pushed := entries s ++ [entry] in
  let kept :=
    if (Z.of_nat (length pushed) >? maxEntries)%Z
    then slice_from (- maxEntries) pushed
    else pushed in
  let logMessage :=
    lit "[" ++ timestamp entry ++ lit "] " ++ upper l ++ lit " " ++ c ++ lit ": " ++ m in
  let line :=
    match l with
    | error_l => (console_error, logMessage, d)
    | warn_l => (console_warn, logMessage, d)
    | success_l => (console_log, check_mark ++ logMessage, d)
    | info_l => (console_log, logMessage, d)
    end in
  mkService kept (console s ++ [line]).

Definition info {D} rt c m (d : option D) := log rt info_l c m d.
Definition warn {D} rt c m (d : option D) := log rt warn_l c m d.
Definition error {D} rt c m (d : option D) := log rt error_l c m d.
Definition success {D} rt c m (d : option D) := log rt success_l c m d.

Definition getEntries {D} (filterLevel : option Level) (s : Service D)
  : list (DebugEntry D) :=
  match filterLevel with
  | Some l =>
      filter (fun e => match level e, l with
                       | info_l, info_l | warn_l, warn_l
                       | error_l, error_l | success_l, success_l => true
                       | _, _ => false
                       end) (entries s)
  | None => entries s
  end.

Definition clear {D} (s : Service D) : Service D := mkService [] (console s).

(** One call of a logging method, with what the runtime supplied to it. *)
Inductive Call (D : Type) :=
| CallLog (rt : Runtime) (l : Level) (c m : jsstring) (d : option D)
| CallInfo (rt : Runtime) (c m : jsstring) (d : option D)
| CallWarn (rt : Runtime) (c m : jsstring) (d : option D)
| CallError (rt : Runtime) (c m : jsstring) (d : option D)
| CallSuccess (rt : Runtime) (c m : jsstring) (d : option D).

Definition perform {D} (k : Call D) : Service D -> Service D :=
  match k with
  | CallLog rt l c m d => log rt l c m d
  | CallInfo rt c m d => info rt c m d
  | CallWarn rt c m d => warn rt c m d
  | CallError rt c m d => error rt c m d
  | CallSuccess rt c m d => success rt c m d
  end.

(** The entry a call appends. *)
Definition appended {D} (k : Call D) : DebugEntry D :=
  match k with
  | CallLog rt l c m d => make_entry rt l c m d
  | CallInfo rt c m d => make_entry rt info_l c m d
  | CallWarn rt c m d => make_entry rt warn_l c m d
  | CallError rt c m d => make_entry rt error_l c m d
  | CallSuccess rt c m d => make_entry rt success_l c m d
  end.

(** A sequence of calls, oldest first. *)
Definition run {D} (ks : list (Call D)) (s : Service D) : Service D :=
  fold_left (fun acc k => perform k acc) ks s.

(** The last [n] elements of a list, in order. *)
Definition last_n {A} (n : nat) (l : list A) : list A :=
  skipn (length l - n) l.

End DebugService.

(* ===================================================================== *)
(** ** What the two creator components share: catalog records, HTTP
       values, component state, and the handler monad *)
(* ===================================================================== *)

Module Creator.

(** [interface ExtensionType] (the [icon] of [extension-creator.tsx] is a
    view component and is left out). *)
Record ExtensionType := mkType {
  type_id : jsstring;
  type_name : jsstring;
  type_description : jsstring;
  complexity : jsstring;
  examples : list jsstring
}.

Inductive RiskLevel := low | medium | high.

(** [interface Permission] *)
Record Permission := mkPermission {
  perm_id : jsstring;
  perm_name : jsstring;
  perm_description : jsstring;
  required_for : list jsstring;
  risk_level : RiskLevel
}.

(** The value handed to [JSON.stringify] for a request body. *)
#[local] Set Warnings "-register-all".
Inductive Json :=
| JStr (s : jsstring)
| JArr (items : list Json)
| JObj (fields : list (jsstring * Json)).

Inductive Method := GET | POST.

(** One call of [fetch(url, { method, headers, body })]. *)
Record Request := mkRequest {
  url : jsstring;
  method : Method;
  headers : list (jsstring * jsstring);
  body : option Json
}.

(** A thrown value: an [Error] with its message, or anything else. *)
Inductive Exn := ErrorObj (msg : jsstring) | NonError.

(** Reading a response body ([response.text()], [response.json()]):
    the promise resolves or rejects. *)
Inductive Read (A : Type) := Resolves (a : A) | Rejects (e : Exn).
Arguments Resolves {A} a.
Arguments Rejects {A} e.

(** A [Response]; [J] is the shape the component reads the parsed body
    at. [response.ok] is derived from the status as the Fetch standard
    defines it. *)
Record Response (J : Type) := mkResponse {
  status : N;
  statusText : jsstring;
  text : Read jsstring;
  json : Read J
}.

Definition ok {J} (r : Response J) : bool :=
  (N.leb 200 (status r) && N.leb (status r) 299)%bool.

(** The promise returned by [fetch]. *)
Inductive Fetch (J : Type) := FetchRejects (e : Exn) | FetchResolves (r : Response J).
Arguments FetchRejects {J} e.
Arguments FetchResolves {J} r.

(** The parsed body of the analyze response, at the shape the components
    read it: [analysisData.recommendations?.suggested_type],
    [...?.required_permissions] and the fields the result panel shows. *)
Record SuggestedType := mkSuggested { suggested : jsstring }.

Record Recommendations := mkRecommendations {
  suggested_type : option (list SuggestedType);
  required_permissions : option (list jsstring);
  complexity_score : option jsstring;
  estimated_development_time : option jsstring
}.

Record AnalysisData := mkAnalysis {
  analysis_error : option jsstring;
  recommendations : option Recommendations
}.

(** The parsed body of the generate response, and the record the simple
    creator builds in its [catch] block. *)
Record ExtensionData := mkExtension {
  ext_error : option jsstring;
  extension_id : option jsstring;
  ext_name : option jsstring;
  ext_description : option jsstring;
  extension_type : option jsstring;
  ext_status : option jsstring;
  install_instructions : option (list jsstring);
  download_url : option jsstring
}.

(** The [useState] cells of a creator component, and next to them what
    the component has done to the outside: the requests issued, the
    console lines written, whether the progress interval is still armed. *)
Record State := mkState {
  step : Z;
  prompt : jsstring;
  selectedType : jsstring;
  selectedPermissions : list jsstring;
  targetWebsites : jsstring;
  isGenerating : bool;
  generationProgress : Z;
  analysis : option AnalysisData;
  generatedExtension : option ExtensionData;
  debugLog : list jsstring;
  network : list Request;
  consoleLines : list jsstring;
  clockReads : nat;
  progressInterval : bool
}.

(** The initial render: [useState(1)], [useState('')], ... *)
Definition initial : State :=
  mkState 1 [] [] [] [] false 0 None None [] [] [] 0 false.

Definition setStep (v : Z) (s : State) : State :=
  mkState v (prompt s) (selectedType s) (selectedPermissions s) (targetWebsites s)
          (isGenerating s) (generationProgress s) (analysis s) (generatedExtension s)
          (debugLog s) (network s) (consoleLines s) (clockReads s) (progressInterval s).
Definition setPrompt (v : jsstring) (s : State) : State :=
  mkState (step s) v (selectedType s) (selectedPermissions s) (targetWebsites s)
          (isGenerating s) (generationProgress s) (analysis s) (generatedExtension s)
          (debugLog s) (network s) (consoleLines s) (clockReads s) (progressInterval s).
Definition setSelectedType (v : jsstring) (s : State) : State :=
  mkState (step s) (prompt s) v (selectedPermissions s) (targetWebsites s)
          (isGenerating s) (generationProgress s) (analysis s) (generatedExtension s)
          (debugLog s) (network s) (consoleLines s) (clockReads s) (progressInterval s).
Definition setSelectedPermissions (f : list jsstring -> list jsstring) (s : State) : State :=
  mkState (step s) (prompt s) (selectedType s) (f (selectedPermissions s)) (targetWebsites s)
          (isGenerating s) (generationProgress s) (analysis s) (generatedExtension s)
          (debugLog s) (network s) (consoleLines s) (clockReads s) (progressInterval s).
Definition setTargetWebsites (v : jsstring) (s : State) : State :=
  mkState (step s) (prompt s) (selectedType s) (selectedPermissions s) v
          (isGenerating s) (generationProgress s) (analysis s) (generatedExtension s)
          (debugLog s) (network s) (consoleLines s) (clockReads s) (progressInterval s).
Definition setIsGenerating (v : bool) (s : State) : State :=
  mkState (step s) (prompt s) (selectedType s) (selectedPermissions s) (targetWebsites s)
          v (generationProgress s) (analysis s) (generatedExtension s)
          (debugLog s) (network s) (consoleLines s) (clockReads s) (progressInterval s).
Definition setGenerationProgress (f : Z -> Z) (s : State) : State :=
  mkState (step s) (prompt s) (selectedType s) (selectedPermissions s) (targetWebsites s)
          (isGenerating s) (f (generationProgress s)) (analysis s) (generatedExtension s)
          (debugLog s) (network s) (consoleLines s) (clockReads s) (progressInterval s).
Definition setAnalysis (v : option AnalysisData) (s : State) : State :=
  mkState (step s) (prompt s) (selectedType s) (selectedPermissions s) (targetWebsites s)
          (isGenerating s) (generationProgress s) v (generatedExtension s)
          (debugLog s) (network s) (consoleLines s) (clockReads s) (progressInterval s).
Definition setGeneratedExtension (v : option ExtensionData) (s : State) : State :=
  mkState (step s) (prompt s) (selectedType s) (selectedPermissions s) (targetWebsites s)
          (isGenerating s) (generationProgress s) (analysis s) v
          (debugLog s) (network s) (consoleLines s) (clockReads s) (progressInterval s).
Definition setDebugLog (f : list jsstring -> list jsstring) (s : State) : State :=
  mkState (step s) (prompt s) (selectedType s) (selectedPermissions s) (targetWebsites s)
          (isGenerating s) (generationProgress s) (analysis s) (generatedExtension s)
          (f (debugLog s)) (network s) (consoleLines s) (clockReads s) (progressInterval s).
Definition send (r : Request) (s : State) : State :=
  mkState (step s) (prompt s) (selectedType s) (selectedPermissions s) (targetWebsites s)
          (isGenerating s) (generationProgress s) (analysis s) (generatedExtension s)
          (debugLog s) (network s ++ [r]) (consoleLines s) (clockReads s) (progressInterval s).
Definition writeConsole (l : jsstring) (s : State) : State :=
  mkState (step s) (prompt s) (selectedType s) (selectedPermissions s) (targetWebsites s)
          (isGenerating s) (generationProgress s) (analysis s) (generatedExtension s)
          (debugLog s) (network s) (consoleLines s ++ [l]) (clockReads s) (progressInterval s).
Definition readClock (s : State) : State :=
  mkState (step s) (prompt s) (selectedType s) (selectedPermissions s) (targetWebsites s)
          (isGenerating s) (generationProgress s) (analysis s) (generatedExtension s)
          (debugLog s) (network s) (consoleLines s) (S (clockReads s)) (progressInterval s).
(** [setInterval] and [clearInterval] of the progress timer. The flag
    stands for the interval of one run: it tells the timers apart only
    as long as no run starts while the interval of an earlier run is
    still armed. *)
Definition armInterval (v : bool) (s : State) : State :=
  mkState (step s) (prompt s) (selectedType s) (selectedPermissions s) (targetWebsites s)
          (isGenerating s) (generationProgress s) (analysis s) (generatedExtension s)
          (debugLog s) (network s) (consoleLines s) (clockReads s) v.

(** *** The handler monad: state, and exceptions that carry the state
    reached when they were thrown. *)
Inductive Outcome (A : Type) :=
| Done (a : A) (s : State)
| Throws (e : Exn) (s : State).
Arguments Done {A} a s.
Arguments Throws {A} e s.

Definition M (A : Type) := State -> Outcome A.

Definition ret {A} (a : A) : M A := fun s => Done a s.
Definition bind {A B} (m : M A) (k : A -> M B) : M B :=
  fun s => match m s with
           | Done a s' => k a s'
           | Throws e s' => Throws e s'
           end.
Definition throw {A} (e : Exn) : M A := fun s => Throws e s.
Definition modify (f : State -> State) : M unit := fun s => Done tt (f s).

(** [try { body } catch (error) { handler } finally { fin }] *)
Definition try_catch_finally (body : M unit) (handler : Exn -> M unit) (fin : M unit)
  : M unit :=
  fun s =>
    let caught :=
      match body s with
      | Done _ s1 => Done tt s1
      | Throws e s1 => handler e s1
      end in
    match caught with
    | Done _ s2 => fin s2
    | Throws e s2 =>
        match fin s2 with
        | Done _ s3 => Throws e s3
        | Throws e' s3 => Throws e' s3
        end
    end.

(** [await p] for a promise that resolves or rejects. *)
Definition await {A} (p : Read A) : M A :=
  match p with
  | Resolves a => ret a
  | Rejects e => throw e
  end.

Definition final {A} (o : Outcome A) : State :=
  match o with Done _ s => s | Throws _ s => s end.

Definition returns {A} (o : Outcome A) : bool :=
  match o with Done _ _ => true | Throws _ _ => false end.

Declare Scope handler_scope.
Delimit Scope handler_scope with handler.
Notation "x <- m ;; k" := (bind m (fun x => k))
  (at level 61, m at next level, right associativity) : handler_scope.
Notation "m ;; k" := (bind m (fun _ => k))
  (at level 61, right associativity) : handler_scope.

(** What the browser and the parent component supply to one handler
    run: [localStorage.getItem('auth_token')], the successive readings of
    [new Date().toLocaleTimeString()], the promise [fetch] returns, and
    how many callbacks of the 500 ms progress interval fire while the
    request is in flight. *)
Record Env (J : Type) := mkEnv {
  auth_token : option jsstring;
  clock : nat -> jsstring;
  fetched : Fetch J;
  ticks : nat
}.

(** The callback of [setInterval] in [handleGenerateExtension]:
    [setGenerationProgress(prev => prev >= 95 ? (clearInterval(..), 95) : prev + 10)].
    A cleared interval fires no more. *)
Definition progressTick (s : State) : State :=
  if progressInterval s then
    if (generationProgress s >=? 95)%Z
    then armInterval false (setGenerationProgress (fun _ => 95%Z) s)
    else setGenerationProgress (fun prev => (prev + 10)%Z) s
  else s.

Fixpoint elapse (n : nat) (s : State) : State :=
  match n with
  | O => s
  | S n' => elapse n' (progressTick s)
  end.

(** [await fetch(url, init)]: the request goes out, interval callbacks run
    while it is pending, then the promise settles. *)
Definition fetch {J} (env : Env J) (r : Request) : M (Response J) :=
  (modify (send r) ;;
   modify (elapse (ticks env)) ;;
   match fetched env with
   | FetchRejects e => throw e
   | FetchResolves resp => ret resp
   end)%handler.

(** [onExtensionGenerated] is an optional prop; a call of it returns or
    throws. [if (onExtensionGenerated) { onExtensionGenerated(extensionData) }] *)
Definition Callback := option (ExtensionData -> option Exn).

Definition invoke (cb : Callback) (x : ExtensionData) : M unit :=
  match cb with
  | Some f => match f x with Some e => throw e | None => ret tt end
  | None => ret tt
  end.

(** [when c m]: [if (c) { m }] *)
Definition when (c : bool) (m : M unit) : M unit := if c then m else ret tt.

Definition analyze_url : jsstring := lit "/api/chrome-extension/analyze".
Definition generate_url : jsstring := lit "/api/chrome-extension/generate".
Definition content_type_json : jsstring * jsstring :=
  (lit "Content-Type", lit "application/json").

(** The body of the generate request, the same expression in both
    components:
    [{ prompt, extension_type: selectedType, permissions: selectedPermissions,
       target_websites: targetWebsites.split(',').map(s => s.trim()).filter(Boolean) }] *)
Definition parseTargetWebsites (targetWebsites : jsstring) : list jsstring :=
  filter truthy (map trim (split comma targetWebsites)).

Definition generateBody (s : State) : Json :=
  JObj [ (lit "prompt", JStr (prompt s));
         (lit "extension_type", JStr (selectedType s));
         (lit "permissions", JArr (map JStr (selectedPermissions s)));
         (lit "target_websites", JArr (map JStr (parseTargetWebsites (targetWebsites s)))) ].

(** The auto-suggestion step after a parsed analysis, written the same
    way in both components apart from the debug lines:
    [analysisData.recommendations?.suggested_type?.length > 0] and
    [analysisData.recommendations?.required_permissions]. *)
Definition firstSuggestion (a : AnalysisData) : option jsstring :=
  match recommendations a with
  | Some r =>
      match suggested_type r with
      | Some (t :: _) => Some (suggested t)
      | _ => None
      end
  | None => None
  end.

Definition suggestedPermissions (a : AnalysisData) : option (list jsstring) :=
  match recommendations a with
  | Some r => required_permissions r
  | None => None
  end.

(** Reading a request body back: a field of the object, a string, an
    array of strings. *)
Definition field (k : jsstring) (j : Json) : option Json :=
  match j with
  | JObj fs => option_map snd (find (fun kv => str_eqb (fst kv) k) fs)
  | _ => None
  end.

Definition asString (j : Json) : option jsstring :=
  match j with JStr x => Some x | _ => None end.

Fixpoint allStrings (items : list Json) : option (list jsstring) :=
  match items with
  | [] => Some []
  | JStr x :: rest => option_map (cons x) (allStrings rest)
  | _ :: _ => None
  end.

Definition asStrings (j : Json) : option (list jsstring) :=
  match j with JArr items => allStrings items | _ => None end.

Definition bodyField (k : jsstring) (r : Request) : option Json :=
  match body r with
  | Some j => field k j
  | None => None
  end.

Definition sentPrompt (r : Request) : option jsstring :=
  match bodyField (lit "prompt") r with
  | Some j => asString j
  | None => None
  end.

Definition sentExtensionType (r : Request) : option jsstring :=
  match bodyField (lit "extension_type") r with
  | Some j => asString j
  | None => None
  end.

Definition sentTargetWebsites (r : Request) : option (list jsstring) :=
  match bodyField (lit "target_websites") r with
  | Some j => asStrings j
  | None => None
  end.



(** What is on screen. Step 3 shows its card only under
    [step === 3 && generatedExtension]. *)
Inductive Screen :=
| DescribeForm
| ConfigureForm
| SuccessScreen (e : ExtensionData)
| FailureScreen (reason : jsstring)
| NothingRendered.

(** The overlay under [{isGenerating && (...)}]. *)
Definition spinner (s : State) : bool := isGenerating s.

(** [disabled={!selectedType || isGenerating}] on the generate button. *)
Definition generateDisabled (s : State) : bool :=
  negb (truthy (selectedType s)) || isGenerating s.

(** [disabled={!prompt.trim() || isGenerating}] on the analyze button. *)
Definition analyzeDisabled (s : State) : bool :=
  negb (truthy (trim (prompt s))) || isGenerating s.




(** [init.headers[name]] of a request. *)
Definition header (name : jsstring) (r : Request) : option jsstring :=
  option_map snd (find (fun kv => str_eqb (fst kv) name) (headers r)).

(** The "Back" button of step 2, the same in both components:
    [onClick={() => setStep(1)}]. *)
Definition back : M unit := modify (setStep 1).

(** The "Create Another Extension" button of step 3, the same in both
    components: [onClick={() => { setStep(1); setGeneratedExtension(null); }}]. *)
Definition createAnother : M unit :=
  (modify (setStep 1) ;; modify (setGeneratedExtension None))%handler.

(** [generatedExtension?.download_url], when it is truthy. *)
Definition downloadUrl (s : State) : option jsstring :=
  match generatedExtension s with
  | Some x =>
      match download_url x with
      | Some u => if truthy u then Some u else None
      | None => None
      end
  | None => None
  end.

(** A run from [s] that only appended [lines] to the debug log, wrote the
    same lines to the console, and read the clock once per line. *)
Definition appendedLines {A} (lines : list jsstring) (s : State) (o : Outcome A) : Prop :=
  debugLog (final o) = debugLog s ++ lines
  /\ consoleLines (final o) = consoleLines s ++ lines
  /\ clockReads (final o) = (clockReads s + length lines)%nat.

(** The value a handler returned, if it returned. *)
Definition value {A} (o : Outcome A) : option A :=
  match o with
  | Done a _ => Some a
  | Throws _ _ => None
  end.

End Creator.

(* ===================================================================== *)
(** ** simple-extension-creator.tsx *)
(* ===================================================================== *)

Module SimpleExtensionCreator.
Import Creator.
Local Open Scope handler_scope.

Definition extensionTypes : list ExtensionType :=
  [ mkType (lit "popup") (lit "Popup Extension")
      (lit "Extension with a popup interface accessible from the browser toolbar")
      (lit "Simple")
      [lit "Password generator"; lit "Unit converter"; lit "Quick notes"];
    mkType (lit "content_script") (lit "Content Script Extension")
      (lit "Extension that modifies or enhances web pages")
      (lit "Medium")
      [lit "Ad blocker"; lit "Page translator"; lit "Social media enhancer"];
    mkType (lit "background") (lit "Background Extension")
      (lit "Extension with background processing capabilities")
      (lit "Advanced")
      [lit "System monitor"; lit "Auto-backup"; lit "Notification manager"];
    mkType (lit "devtools") (lit "DevTools Extension")
      (lit "Extension that adds panels to Chrome Developer Tools")
      (lit "Advanced")
      [lit "React DevTools"; lit "Performance profiler"; lit "API inspector"];
    mkType (lit "options") (lit "Options Extension")
      (lit "Extension with a dedicated options/settings page")
      (lit "Simple")
      [lit "Theme customizer"; lit "Privacy settings"; lit "Feature toggles"] ].

Definition commonPermissions : list Permission :=
  [ mkPermission (lit "storage") (lit "Storage")
      (lit "Store and retrieve data using Chrome's storage API")
      [lit "Settings"; lit "User data"; lit "Preferences"] low;
    mkPermission (lit "activeTab") (lit "Active Tab")
      (lit "Access the currently active tab")
      [lit "Current page modification"; lit "Tab information"] medium;
    mkPermission (lit "tabs") (lit "All Tabs")
      (lit "Access information about all tabs")
      [lit "Tab management"; lit "Multi-tab operations"] high;
    mkPermission (lit "notifications") (lit "Notifications")
      (lit "Display system notifications")
      [lit "User alerts"; lit "Status updates"] low;
    mkPermission (lit "webRequest") (lit "Web Requests")
      (lit "Monitor and modify network requests")
      [lit "Request blocking"; lit "Request modification"] high ].

(** The type cards of step 1: [extensionTypes.slice(0, 4).map(...)]. *)
Definition typeCards : list ExtensionType := slice_to 4 extensionTypes.

Inductive LogType := info | error | success.

Definition toUpperCase (t : LogType) : jsstring :=
  match t with
  | info => lit "INFO"
  | error => lit "ERROR"
  | success => lit "SUCCESS"
  end.

Definition addDebugLog {J} (env : Env J) (message : jsstring) (type : LogType) : M unit :=
  fun s =>
    let timestamp := clock env (clockReads s) in
    let logEntry :=
      lit "[" ++ timestamp ++ lit "] " ++ toUpperCase type ++ lit ": " ++ message in
    Done tt (writeConsole logEntry
               (setDebugLog (fun prev => prev ++ [logEntry]) (readClock s))).

(** The headers of both requests: the content type, and the bearer token
    when [localStorage.getItem('auth_token')] is truthy. *)
Definition requestHeaders {J} (env : Env J) : list (jsstring * jsstring) :=
  content_type_json ::
  match auth_token env with
  | Some t => if truthy t then [(lit "Authorization", lit "Bearer " ++ t)] else []
  | None => []
  end.

Definition errorMessageOr (fallback : jsstring) (e : Exn) : jsstring :=
  match e with
  | ErrorObj m => m
  | NonError => fallback
  end.

Definition handleAnalyzePrompt (env : Env AnalysisData) : M unit :=
  fun s0 =>
  if negb (truthy (trim (prompt s0))) then
    addDebugLog env (lit "No prompt provided") error s0
  else
    try_catch_finally
      (modify (setIsGenerating true) ;;
       modify (setGenerationProgress (fun _ => 25%Z)) ;;
       addDebugLog env (lit "Starting extension analysis...") info ;;
       response <- fetch env
         (mkRequest analyze_url POST (requestHeaders env)
                    (Some (JObj [(lit "prompt", JStr (prompt s0))]))) ;;
       addDebugLog env (lit "API Response Status: " ++ of_N (status response)) info ;;
       when (negb (ok response))
         (errorText <- await (text response) ;;
          addDebugLog env
            (lit "API Error: " ++ of_N (status response) ++ lit " "
             ++ statusText response ++ lit " - " ++ errorText) error ;;
          throw (ErrorObj (lit "Analysis failed: " ++ of_N (status response)
                           ++ lit " " ++ statusText response))) ;;
       analysisData <- await (json response) ;;
       addDebugLog env (lit "Analysis completed successfully") success ;;
       modify (setAnalysis (Some analysisData)) ;;
       modify (setGenerationProgress (fun _ => 50%Z)) ;;
       match firstSuggestion analysisData with
       | Some t =>
           modify (setSelectedType t) ;;
           addDebugLog env (lit "Auto-selected extension type: " ++ t) info
       | None => ret tt
       end ;;
       match suggestedPermissions analysisData with
       | Some ps =>
           modify (setSelectedPermissions (fun _ => ps)) ;;
           addDebugLog env
             (lit "Auto-selected permissions: " ++ join (lit ", ") ps) info
       | None => ret tt
       end ;;
       modify (setStep 2))
      (fun e =>
         let errorMessage := errorMessageOr (lit "Analysis failed. Please try again.") e in
         addDebugLog env (lit "Analysis error: " ++ errorMessage) error ;;
         modify (setAnalysis
           (Some (mkAnalysis (Some errorMessage)
                    (Some (mkRecommendations None (Some [])
                             (Some (lit "Unknown")) (Some (lit "Unknown"))))))))
      (modify (setIsGenerating false) ;;
       modify (setGenerationProgress (fun _ => 0%Z)))
      s0.

(** The record the [catch] block of [handleGenerateExtension] stores. *)
Definition failedExtension (errorMessage : jsstring) : ExtensionData :=
  mkExtension (Some errorMessage) (Some []) (Some []) (Some []) (Some [])
              (Some (lit "failed")) (Some []) None.

(** [${extensionData.name}] in a template literal. *)
Definition showName (n : option jsstring) : jsstring :=
  match n with Some x => x | None => lit "undefined" end.

Definition handleGenerateExtension (env : Env ExtensionData)
           (onExtensionGenerated : Callback) : M unit :=
  fun s0 =>
    try_catch_finally
      (modify (setIsGenerating true) ;;
       modify (setGenerationProgress (fun _ => 0%Z)) ;;
       addDebugLog env (lit "Starting extension generation...") info ;;
       modify (armInterval true) ;;
       response <- fetch env
         (mkRequest generate_url POST (requestHeaders env) (Some (generateBody s0))) ;;
       addDebugLog env
         (lit "Generation API Response Status: " ++ of_N (status response)) info ;;
       when (negb (ok response))
         (errorText <- await (text response) ;;
          addDebugLog env
            (lit "Generation API Error: " ++ of_N (status response) ++ lit " "
             ++ statusText response ++ lit " - " ++ errorText) error ;;
          throw (ErrorObj (lit "Extension generation failed: " ++ of_N (status response)
                           ++ lit " " ++ statusText response))) ;;
       extensionData <- await (json response) ;;
       addDebugLog env
         (lit "Extension generated successfully: " ++ showName (ext_name extensionData))
         success ;;
       modify (setGeneratedExtension (Some extensionData)) ;;
       modify (setGenerationProgress (fun _ => 100%Z)) ;;
       invoke onExtensionGenerated extensionData ;;
       modify (setStep 3))
      (fun e =>
         let errorMessage :=
           errorMessageOr (lit "Extension generation failed. Please try again.") e in
         addDebugLog env (lit "Generation error: " ++ errorMessage) error ;;
         modify (setGeneratedExtension (Some (failedExtension errorMessage))) ;;
         modify (setStep 3))
      (modify (setIsGenerating false))
      s0.

(** The request [handleGenerateExtension] issues from a render with
    state [s0]. *)
Definition generateRequest (env : Env ExtensionData) (s0 : State) : Request :=
  mkRequest generate_url POST (requestHeaders env) (Some (generateBody s0)).

(** The ways a run of [handleGenerateExtension] can go, read off the
    environment: the exception its [try] block ends with, if any. *)
Definition generateFailure (env : Env ExtensionData) (cb : Callback) : option Exn :=
  match fetched env with
  | FetchRejects e => Some e
  | FetchResolves r =>
      if ok r then
        match json r with
        | Rejects e => Some e
        | Resolves x => match cb with Some f => f x | None => None end
        end
      else
        match text r with
        | Rejects e => Some e
        | Resolves _ =>
            Some (ErrorObj (lit "Extension generation failed: " ++ of_N (status r)
                            ++ lit " " ++ statusText r))
        end
  end.

(** The parsed body of a 2xx answer. *)
Definition delivered (env : Env ExtensionData) : option ExtensionData :=
  match fetched env with
  | FetchResolves r =>
      if ok r then match json r with Resolves x => Some x | Rejects _ => None end
      else None
  | FetchRejects _ => None
  end.

(** [setSelectedPermissions(prev => prev.includes(id) ? prev.filter(p => p !== id) : [...prev, id])] *)
Definition togglePermissionUpdate (permissionId : jsstring) (prev : list jsstring)
  : list jsstring :=
  if includes prev permissionId
  then filter (fun p => negb (str_eqb p permissionId)) prev
  else prev ++ [permissionId].

Definition togglePermission {J} (env : Env J) (permissionId : jsstring) : M unit :=
  modify (setSelectedPermissions (togglePermissionUpdate permissionId)) ;;
  addDebugLog env (lit "Permission toggled: " ++ permissionId) info.

(** The card the component renders for the current step. In step 3 the
    card is the failure card when [generatedExtension.error] is truthy. *)
Definition screen (s : State) : Screen :=
  if (step s =? 1)%Z then DescribeForm
  else if (step s =? 2)%Z then ConfigureForm
  else if (step s =? 3)%Z then
    match generatedExtension s with
    | Some x =>
        match ext_error x with
        | Some reason => if truthy reason then FailureScreen reason else SuccessScreen x
        | None => SuccessScreen x
        end
    | None => NothingRendered
    end
  else NothingRendered.

(** The request [handleAnalyzePrompt] issues from a render with state [s0]. *)
Definition analyzeRequest (env : Env AnalysisData) (s0 : State) : Request :=
  mkRequest analyze_url POST (requestHeaders env)
            (Some (JObj [(lit "prompt", JStr (prompt s0))])).

(** The exception the [try] block of [handleAnalyzePrompt] ends with, if
    any, read off the environment. *)
Definition analyzeFailure (env : Env AnalysisData) : option Exn :=
  match fetched env with
  | FetchRejects e => Some e
  | FetchResolves r =>
      if ok r then
        match json r with
        | Rejects e => Some e
        | Resolves _ => None
        end
      else
        match text r with
        | Rejects e => Some e
        | Resolves _ =>
            Some (ErrorObj (lit "Analysis failed: " ++ of_N (status r)
                            ++ lit " " ++ statusText r))
        end
  end.

(** The parsed body of a 2xx answer to the analyze request. *)
Definition analysed (env : Env AnalysisData) : option AnalysisData :=
  match fetched env with
  | FetchResolves r =>
      if ok r then match json r with Resolves a => Some a | Rejects _ => None end
      else None
  | FetchRejects _ => None
  end.

(** The record the [catch] block of [handleAnalyzePrompt] stores. *)
Definition failedAnalysis (errorMessage : jsstring) : AnalysisData :=
  mkAnalysis (Some errorMessage)
             (Some (mkRecommendations None (Some [])
                      (Some (lit "Unknown")) (Some (lit "Unknown")))).

(** [handleDownloadExtension]; the result is the URL handed to
    [window.open(url, '_blank')], if the call is made. *)
Definition handleDownloadExtension {J} (env : Env J) : M (option jsstring) :=
  fun s0 =>
    match downloadUrl s0 with
    | Some u =>
        (addDebugLog env (lit "Downloading extension: " ++ u) info ;;
         ret (Some u)) s0
    | None =>
        (addDebugLog env (lit "No download URL available") error ;;
         ret None) s0
    end.

(** The "Try Again" button of the failure card:
    [onClick={() => { setStep(1); setGeneratedExtension(null); setAnalysis(null); }}]. *)
Definition tryAgain : M unit :=
  modify (setStep 1) ;; modify (setGeneratedExtension None) ;; modify (setAnalysis None).

(** The "Clear" button of the debug panel: [onClick={() => setDebugLog([])}]. *)
Definition clearDebugLog : M unit := modify (setDebugLog (fun _ => [])).

(** [getComplexityColor] and [getRiskColor]; the second takes a string. *)
Definition getComplexityColor (complexity : jsstring) : jsstring :=
  if str_eqb complexity (lit "Simple") then lit "bg-green-100 text-green-800"
  else if str_eqb complexity (lit "Medium") then lit "bg-yellow-100 text-yellow-800"
  else if str_eqb complexity (lit "Advanced") then lit "bg-red-100 text-red-800"
  else lit "bg-gray-100 text-gray-800".

Definition getRiskColor (risk : jsstring) : jsstring :=
  if str_eqb risk (lit "low") then lit "bg-green-100 text-green-800"
  else if str_eqb risk (lit "medium") then lit "bg-yellow-100 text-yellow-800"
  else if str_eqb risk (lit "high") then lit "bg-red-100 text-red-800"
  else lit "bg-gray-100 text-gray-800".

(** The selection after clicking the checkboxes [ids] one after the other. *)
Definition toggles (ids : list jsstring) (selection : list jsstring) : list jsstring :=
  fold_left (fun acc id => togglePermissionUpdate id acc) ids selection.

End SimpleExtensionCreator.

(* ===================================================================== *)
(** ** extension-creator.tsx *)
(* ===================================================================== *)

Module ChromeExtensionCreator.
Import Creator.
Local Open Scope handler_scope.

(** The same five entries as in the simple creator; [icon] is left out. *)
Definition extensionTypes : list ExtensionType :=
  [ mkType (lit "popup") (lit "Popup Extension")
      (lit "Extension with a popup interface accessible from the browser toolbar")
      (lit "Simple")
      [lit "Password generator"; lit "Unit converter"; lit "Quick notes"];
    mkType (lit "content_script") (lit "Content Script Extension")
      (lit "Extension that modifies or enhances web pages")
      (lit "Medium")
      [lit "Ad blocker"; lit "Page translator"; lit "Social media enhancer"];
    mkType (lit "background") (lit "Background Extension")
      (lit "Extension with background processing capabilities")
      (lit "Advanced")
      [lit "System monitor"; lit "Auto-backup"; lit "Notification manager"];
    mkType (lit "devtools") (lit "DevTools Extension")
      (lit "Extension that adds panels to Chrome Developer Tools")
      (lit "Advanced")
      [lit "React DevTools"; lit "Performance profiler"; lit "API inspector"];
    mkType (lit "options") (lit "Options Extension")
      (lit "Extension with a dedicated options/settings page")
      (lit "Simple")
      [lit "Theme customizer"; lit "Privacy settings"; lit "Feature toggles"] ].

Definition typeCards : list ExtensionType := slice_to 4 extensionTypes.

(** [console.error(label, error)] *)
Definition consoleError (label : jsstring) (e : Exn) : M unit :=
  modify (writeConsole
            (label ++ match e with
                      | ErrorObj m => lit " Error: " ++ m
                      | NonError => []
                      end)).

Definition handleAnalyzePrompt (env : Env AnalysisData) : M unit :=
  fun s0 =>
  if negb (truthy (trim (prompt s0))) then Done tt s0
  else
    try_catch_finally
      (modify (setIsGenerating true) ;;
       modify (setGenerationProgress (fun _ => 25%Z)) ;;
       response <- fetch env (mkRequest analyze_url GET [content_type_json] None) ;;
       analysisData <- await (json response) ;;
       modify (setAnalysis (Some analysisData)) ;;
       modify (setGenerationProgress (fun _ => 50%Z)) ;;
       match firstSuggestion analysisData with
       | Some t => modify (setSelectedType t)
       | None => ret tt
       end ;;
       match suggestedPermissions analysisData with
       | Some ps => modify (setSelectedPermissions (fun _ => ps))
       | None => ret tt
       end ;;
       modify (setStep 2))
      (fun e => consoleError (lit "Analysis failed:") e)
      (modify (setIsGenerating false) ;;
       modify (setGenerationProgress (fun _ => 0%Z)))
      s0.

Definition handleGenerateExtension (env : Env ExtensionData)
           (onExtensionGenerated : Callback) : M unit :=
  fun s0 =>
    try_catch_finally
      (modify (setIsGenerating true) ;;
       modify (setGenerationProgress (fun _ => 0%Z)) ;;
       modify (armInterval true) ;;
       response <- fetch env
         (mkRequest generate_url POST [content_type_json] (Some (generateBody s0))) ;;
       extensionData <- await (json response) ;;
       modify (setGeneratedExtension (Some extensionData)) ;;
       modify (setGenerationProgress (fun _ => 100%Z)) ;;
       invoke onExtensionGenerated extensionData ;;
       modify (setStep 3))
      (fun e => consoleError (lit "Extension generation failed:") e)
      (modify (setIsGenerating false))
      s0.

Definition generateRequest (s0 : State) : Request :=
  mkRequest generate_url POST [content_type_json] (Some (generateBody s0)).

(** [onCheckedChange] of a permission checkbox: it reads
    [selectedPermissions] of the render it was created in. *)
Definition onCheckedChange (permissionId : jsstring) (checked : bool) : M unit :=
  fun s0 =>
    modify (setSelectedPermissions (fun _ =>
      if checked
      then selectedPermissions s0 ++ [permissionId]
      else filter (fun p => negb (str_eqb p permissionId)) (selectedPermissions s0))) s0.

(** Step 3 has one card only, the success card. *)
Definition screen (s : State) : Screen :=
  if (step s =? 1)%Z then DescribeForm
  else if (step s =? 2)%Z then ConfigureForm
  else if (step s =? 3)%Z then
    match generatedExtension s with
    | Some x => SuccessScreen x
    | None => NothingRendered
    end
  else NothingRendered.

(** [handleDownloadExtension]; the result is the URL handed to
    [window.open(url, '_blank')], if the call is made. *)
Definition handleDownloadExtension : M (option jsstring) :=
  fun s0 => ret (downloadUrl s0) s0.

(** checkbox.tsx, [handleChange]: the input is controlled by
    [checked={selectedPermissions.includes(permission.id)}], so a click
    reports the opposite value, [onCheckedChange(e.target.checked)]. *)
Definition clickPermission (permissionId : jsstring) : M unit :=
  fun s0 =>
    onCheckedChange permissionId
      (negb (includes (selectedPermissions s0) permissionId)) s0.

End ChromeExtensionCreator.

(* ===================================================================== *)
(** ** popup_timer.json *)
(* ===================================================================== *)

Module PopupTimer.

Record Action := mkAction { default_popup : jsstring; default_title : jsstring }.

Record Manifest := mkManifest {
  manifest_version : Z;
  manifest_name : jsstring;
  version : jsstring;
  manifest_description : jsstring;
  manifest_permissions : list jsstring;
  action : Action;
  icons : list (jsstring * jsstring)
}.

(** The template document. Of [files] the paths are kept; the file texts,
    [install_instructions], [features] and [use_cases] are prose. *)
Record Template := mkTemplate {
  name : jsstring;
  description : jsstring;
  type : jsstring;
  complexity : jsstring;
  estimated_time : jsstring;
  permissions : list jsstring;
  manifest : Manifest;
  files : list jsstring
}.

Definition popup_timer : Template :=
  mkTemplate
    (lit "Pomodoro Timer Extension")
    (lit "A productivity timer extension with Pomodoro technique support")
    (lit "popup")
    (lit "Simple")
    (lit "10-15 minutes")
    [lit "storage"; lit "notifications"; lit "alarms"]
    (mkManifest 3
       (lit "AI Generated Pomodoro Timer")
       (lit "1.0.0")
       (lit "A Pomodoro timer to boost your productivity")
       [lit "storage"; lit "notifications"; lit "alarms"]
       (mkAction (lit "popup.html") (lit "Pomodoro Timer"))
       [ (lit "16", lit "icons/icon16.png"); (lit "32", lit "icons/icon32.png");
         (lit "48", lit "icons/icon48.png"); (lit "128", lit "icons/icon128.png") ])
    [lit "popup.html"; lit "popup.css"; lit "popup.js"].

End PopupTimer.

(* ===================================================================== *)
(** ** The generation back end *)
(* ===================================================================== *)

(** The analyzer, the orchestrator, the component builders and the HTTP
    endpoints ([backend/app/services/chrome_extension_generator.py],
    [backend/app/api/endpoints/chrome_extension.py]) are not among the
    sources; the front end above is their caller. Every definition of this
    module is modelled from the specification. *)
Module Backend.

(** Modelled from the spec: the archetype tag of the missing generator
    service, "one of {Popup, ContentScript, Background, DevTools, Options}". *)
Inductive Archetype := Popup | ContentScript | Background | DevTools | Options.

(** Modelled from the spec: the error taxonomy of the missing service. *)
Inductive ErrorKind :=
| InvalidInput | MissingConfiguration | TemplateMissing | ProviderError | PackagingError.

(** Modelled from the spec: the lifecycle states of a generated artifact
    in the missing orchestrator. *)
Inductive Lifecycle := Pending | Analyzing | Building | Packaging | Complete | Failed.

(** Modelled from the spec: the request of the missing [generate]
    operation, "prompt, chosen archetype, chosen permission set, optional
    target-site patterns, authenticated user id". *)
Record GenerationRequest := mkGenRequest {
  req_prompt : jsstring;
  req_extension_type : jsstring;
  req_permissions : list jsstring;
  req_target_websites : list jsstring;
  req_user : N
}.

(** Modelled from the spec: the manifest the missing orchestrator
    assembles "from {archetype, declared permission set, target-site
    patterns if ContentScript}". *)
Record Manifest := mkManifest {
  man_archetype : Archetype;
  man_permissions : list jsstring;
  host_permissions : list jsstring
}.

(** Modelled from the spec: the file set of the missing builders, "a
    mapping of relative path to text content". *)
Definition FileSet := list (jsstring * jsstring).

(** Modelled from the spec: the persisted record of the missing
    orchestrator; [history] lists the lifecycle states it went through. *)
Record Artifact := mkArtifact {
  art_id : N;
  owner : N;
  archetype : Archetype;
  declared : list jsstring;
  art_files : FileSet;
  art_manifest : option Manifest;
  state : Lifecycle;
  error_detail : option ErrorKind;
  handle : option jsstring;
  history : list Lifecycle
}.

(** Modelled from the spec: what the missing [generate] gives back, a
    rejection before any record exists or the terminal record. *)
Inductive Generated := Rejected (e : ErrorKind) | Returned (a : Artifact).

(** Modelled from the spec: the result of the missing analyzer. *)
Record AnalysisResult := mkResult {
  degraded : bool;
  suggested_types : list (Archetype * N);
  result_permissions : list jsstring;
  result_complexity : jsstring;
  estimated_time : jsstring
}.

(** Modelled from the spec: the artifact summary the missing
    [POST /generate] endpoint answers with, "{ id, extension_type, status,
    download_url?, error? }". *)
Record Summary := mkSummary {
  sum_id : N;
  sum_extension_type : Archetype;
  sum_status : jsstring;
  sum_download_url : option jsstring;
  sum_error : option jsstring
}.

(** Modelled from the spec: an answer of a missing HTTP endpoint. *)
Record HttpAnswer (B : Type) := mkAnswer { code : N; payload : option B }.

(** Modelled from the spec: the archetype ids of the missing type catalog. *)
Definition archetype_of (id : jsstring) : option Archetype :=
  if str_eqb id (lit "popup") then Some Popup
  else if str_eqb id (lit "content_script") then Some ContentScript
  else if str_eqb id (lit "background") then Some Background
  else if str_eqb id (lit "devtools") then Some DevTools
  else if str_eqb id (lit "options") then Some Options
  else None.

(** Modelled from the spec: the name the missing service reports an error
    kind under. *)
Definition kind_name (e : ErrorKind) : jsstring :=
  match e with
  | InvalidInput => lit "InvalidInput"
  | MissingConfiguration => lit "MissingConfiguration"
  | TemplateMissing => lit "TemplateMissing"
  | ProviderError => lit "ProviderError"
  | PackagingError => lit "PackagingError"
  end.

(** Modelled from the spec: the archetype test of the missing
    content-script builder. *)
Definition is_content_script (a : Archetype) : bool :=
  match a with ContentScript => true | _ => false end.

(** Modelled from the spec: "an empty pattern list" in the request handed
    to the missing content-script builder. *)
Definition no_patterns (r : GenerationRequest) : bool :=
  match req_target_websites r with [] => true | _ :: _ => false end.


Section Service.

(** Modelled from the spec: the collaborators of the missing service,
    left open: the permission catalog, the template store, the archive
    store, the model provider and the keyword ranking. *)
Variable catalog : list jsstring.
Variable templates : Archetype -> option FileSet.
Variable packager : N -> FileSet -> Manifest -> option jsstring.
Variable provider : jsstring -> option AnalysisResult.
Variable ranking : jsstring -> list (Archetype * N).

(** Modelled from the spec: request validation of the missing
    orchestrator, "archetype must be a known catalog value; every
    permission id must exist in the catalog; target-site patterns, if
    present, must be non-empty strings", and a non-empty prompt. *)
Definition validate (r : GenerationRequest) : ErrorKind + Archetype :=
  match archetype_of (req_extension_type r) with
  | None => inl InvalidInput
  | Some a =>
      if negb (forallb (includes catalog) (req_permissions r)) then inl InvalidInput
      else if negb (truthy (trim (req_prompt r))) then inl InvalidInput
      else if negb (forallb truthy (req_target_websites r)) then inl InvalidInput
      else inr a
  end.

(** Modelled from the spec: the missing component builders. The
    content-script builder "requires at least one target-site pattern"
    and fails with [MissingConfiguration] otherwise; every builder fails
    with [TemplateMissing] when the store has no template. *)
Definition build (a : Archetype) (r : GenerationRequest) : ErrorKind + FileSet :=
  if is_content_script a && no_patterns r
  then inl MissingConfiguration
  else match templates a with
       | Some fs => inr fs
       | None => inl TemplateMissing
       end.

(** Modelled from the spec: manifest assembly of the missing
    orchestrator. *)
Definition assemble (a : Archetype) (r : GenerationRequest) : Manifest :=
  mkManifest a (req_permissions r)
             (if is_content_script a then req_target_websites r else []).

(** Modelled from the spec: one state transition of the missing
    orchestrator, recorded in the history. *)
Definition transition (st : Lifecycle) (x : Artifact) : Artifact :=
  mkArtifact (art_id x) (owner x) (archetype x) (declared x) (art_files x)
             (art_manifest x) st (error_detail x) (handle x) (history x ++ [st]).

(** Modelled from the spec: the terminal [Failed] state of the missing
    orchestrator, "error detail set, no handle". *)
Definition fail (e : ErrorKind) (x : Artifact) : Artifact :=
  let y := transition Failed x in
  mkArtifact (art_id y) (owner y) (archetype y) (declared y) (art_files y)
             (art_manifest y) (state y) (Some e) None (history y).

(** Modelled from the spec: the missing orchestrator storing the file set
    of the builder and the assembled manifest. *)
Definition built (fs : FileSet) (m : Manifest) (x : Artifact) : Artifact :=
  mkArtifact (art_id x) (owner x) (archetype x) (declared x) fs
             (Some m) (state x) (error_detail x) (handle x) (history x).

(** Modelled from the spec: the terminal [Complete] state of the missing
    orchestrator, "artifact handle set". *)
Definition complete (h : jsstring) (x : Artifact) : Artifact :=
  let y := transition Complete x in
  mkArtifact (art_id y) (owner y) (archetype y) (declared y) (art_files y)
             (art_manifest y) (state y) None (Some h) (history y).

(** Modelled from the spec: the missing [generate] operation. A rejected
    request creates no record; an accepted one is created [Pending],
    goes to [Building], and a builder or packager failure ends it
    [Failed] with the error kept, and the record is returned. *)
Definition generate (fresh : N) (r : GenerationRequest) : Generated :=
  match validate r with
  | inl e => Rejected e
  | inr a =>
      let pending :=
        mkArtifact fresh (req_user r) a (req_permissions r) [] None
                   Pending None None [Pending] in
      let building := transition Building pending in
      match build a r with
      | inl e => Returned (fail e building)
      | inr fs =>
          let m := assemble a r in
          let packaging := transition Packaging (built fs m building) in
          match packager fresh fs m with
          | Some h => Returned (complete h packaging)
          | None => Returned (fail PackagingError packaging)
          end
      end
  end.

(** Modelled from the spec: the [status] string of the missing endpoint's
    summary, "failed" for a failed record. *)
Definition status_name (st : Lifecycle) : jsstring :=
  match st with
  | Pending => lit "pending"
  | Analyzing => lit "analyzing"
  | Building => lit "building"
  | Packaging => lit "packaging"
  | Complete => lit "complete"
  | Failed => lit "failed"
  end.

(** Modelled from the spec: the summary the missing endpoint makes of a
    record. *)
Definition summary (x : Artifact) : Summary :=
  mkSummary (art_id x) (archetype x) (status_name (state x)) (handle x)
            (option_map kind_name (error_detail x)).

(** Modelled from the spec: the shape check of the missing
    [POST /generate] endpoint, "unknown archetype, unknown permission
    id, empty prompt, or ContentScript with no target patterns". *)
Definition well_shaped (r : GenerationRequest) : bool :=
  match validate r with
  | inl _ => false
  | inr a => negb (is_content_script a && no_patterns r)
  end.

(** Modelled from the spec: the missing [POST /generate] endpoint, a 4xx
    for a shape violation and otherwise the artifact summary, "failure
    is communicated via status failed and error, not via a non-2xx
    code". *)
Definition post_generate (fresh : N) (r : GenerationRequest) : HttpAnswer Summary :=
  if well_shaped r then
    match generate fresh r with
    | Returned x => mkAnswer 200 (Some (summary x))
    | Rejected _ => mkAnswer 400 None
    end
  else mkAnswer 400 None.

(** Modelled from the spec: the heuristic fallback of the missing
    analyzer, "default-to-Medium complexity, and a default small
    permission set (storage)", marked degraded. *)
Definition heuristic (prompt : jsstring) : AnalysisResult :=
  mkResult true (ranking prompt) [lit "storage"] (lit "Medium") (lit "15-30 min").

(** Modelled from the spec: the missing [analyze] operation, "prompt
    must be non-empty after trimming; otherwise fails with
    InvalidInput", with the fallback when the provider fails. *)
Definition analyze (prompt : jsstring) : ErrorKind + AnalysisResult :=
  if negb (truthy (trim prompt)) then inl InvalidInput
  else match provider prompt with
       | Some res => inr res
       | None => inr (heuristic prompt)
       end.

(** Modelled from the spec: the missing [POST /analyze] endpoint,
    "always HTTP 200 on a processed request; HTTP 4xx only on
    missing/empty prompt". *)
Definition post_analyze (prompt : jsstring) : HttpAnswer AnalysisResult :=
  match analyze prompt with
  | inl _ => mkAnswer 400 None
  | inr res => mkAnswer 200 (Some res)
  end.

End Service.

End Backend.

(* ===================================================================== *)
(** ** Concrete runs *)
(* ===================================================================== *)

Module Scenario.
Import Creator.

Definition noon : nat -> jsstring := fun _ => lit "12:00:00".

(** Step 1 with the prompt typed in. *)
Definition described : State := setPrompt (lit "timer") initial.

(** Step 1 with only blanks typed in. *)
Definition blank : State := setPrompt (lit "   ") initial.

(** Step 2 with the popup type chosen. *)
Definition configured : State :=
  setSelectedType (lit "popup") (setStep 2 described).


(** The network is down: [fetch] rejects. *)
Definition offline (J : Type) : Env J :=
  mkEnv None noon (FetchRejects (ErrorObj (lit "Failed to fetch"))) 3.

(** The server answers 500 with a JSON error document. *)
Definition server_error_body : ExtensionData :=
  mkExtension (Some (lit "Internal Server Error")) None None None None None None None.

Definition server_error : Env ExtensionData :=
  mkEnv None noon
        (FetchResolves
           (mkResponse 500 (lit "Internal Server Error")
                       (Resolves (lit "{}")) (Resolves server_error_body)))
        1.

(** The server answers 200 with an analysis. *)
Definition analysed : Env AnalysisData :=
  mkEnv (Some (lit "token")) noon
        (FetchResolves
           (mkResponse 200 (lit "OK") (Resolves (lit "{}"))
              (Resolves
                 (mkAnalysis None
                    (Some (mkRecommendations
                             (Some [mkSuggested (lit "popup")])
                             (Some [lit "storage"])
                             (Some (lit "Simple")) (Some (lit "10-15 min"))))))))
        0.

(** A back end with the five permissions of the front end in its
    catalog, a one-file template per archetype, and an archive store
    that always succeeds. *)
Definition catalog : list jsstring :=
  [lit "storage"; lit "activeTab"; lit "tabs"; lit "notifications"; lit "webRequest"].

Definition templates : Backend.Archetype -> option Backend.FileSet :=
  fun _ => Some [(lit "main.js", lit "// generated")].

Definition packager : N -> Backend.FileSet -> Backend.Manifest -> option jsstring :=
  fun id _ _ => Some (lit "generated_projects/" ++ of_N id ++ lit ".zip").

Definition provider : jsstring -> option Backend.AnalysisResult := fun _ => None.

Definition ranking : jsstring -> list (Backend.Archetype * N) :=
  fun _ => [(Backend.Popup, 50%N)].

Definition blocker_request : Backend.GenerationRequest :=
  Backend.mkGenRequest (lit "block distracting sites during work hours")
    (lit "content_script") [lit "storage"; lit "activeTab"]
    [lit "*.facebook.com"] 7.




End Scenario.

(* ===================================================================== *)
(** ** The debug service: API and health-check helpers *)
(* ===================================================================== *)

Module DebugApi.
Import Creator DebugService.

(** The [data] objects these helpers log. [R] is the type of the caller's
    [requestData]. *)
Inductive Payload (R : Type) :=
| ApiCall (requestData : option R) (status : option N) (statusText : option jsstring)
| ApiError (endpoint method : jsstring) (requestData : option R) (errorData : jsstring)
| StatusOnly (status : N)
| Caught (e : Exn).
Arguments ApiCall {R} requestData status statusText.
Arguments ApiError {R} endpoint method requestData errorData.
Arguments StatusOnly {R} status.
Arguments Caught {R} e.

(** [logAPICall(endpoint, method, requestData?, response?)]. The two logging
    calls read the clock one after the other ([rt1], [rt2]);
    [response.clone().text()] resolves or rejects as [text] says. *)
Definition logAPICall {R J} (rt1 rt2 : Runtime) (endpoint method : jsstring)
           (requestData : option R) (response : option (Response J))
           (s : Service (Payload R)) : option (Response J) * Service (Payload R) :=
  let s1 :=
    info rt1 (lit "API") (method ++ lit " " ++ endpoint)
         (Some (ApiCall requestData (option_map (@status J) response)
                        (option_map (@statusText J) response))) s in
  match response with
  | Some r =>
      if negb (ok r) then
        let errorData :=
          match text r with
          | Resolves t => t
          | Rejects _ => lit "Could not read response body"
          end in
        (response,
         error rt2 (lit "API")
               (lit "API Error: " ++ of_N (status r) ++ lit " " ++ statusText r)
               (Some (ApiError endpoint method requestData errorData)) s1)
      else (response, s1)
  | None => (response, s1)
  end.

(** [logExtensionStep], [logExtensionError], [logExtensionSuccess]; the
    error is given as the string it prints as. *)
Definition logExtensionStep {D} (rt : Runtime) (step : jsstring) (d : option D) :=
  info rt (lit "ExtensionGenerator") (lit "Step: " ++ step) d.

Definition logExtensionError {D} (rt : Runtime) (step err : jsstring) (d : option D) :=
  error rt (lit "ExtensionGenerator") (lit "Error in " ++ step ++ lit ": " ++ err) d.

Definition logExtensionSuccess {D} (rt : Runtime) (step : jsstring) (d : option D) :=
  success rt (lit "ExtensionGenerator") (lit "Completed: " ++ step) d.

(** The request of a health check:
    [fetch(url, { method: 'GET', headers: { 'Content-Type': 'application/json' } })]. *)
Definition healthRequest (url : jsstring) : Request :=
  mkRequest url GET [content_type_json] None.

(** The common body of [checkBackendHealth] and [checkChromeExtensionAPI]:
    the request issued, the boolean returned, and the service afterwards. *)
Definition healthCheck {R J} (url healthy failed : jsstring) (rt : Runtime)
           (answer : Fetch J) (s : Service (Payload R))
  : Request * bool * Service (Payload R) :=
  match answer with
  | FetchResolves r =>
      if ok r
      then (healthRequest url, true, success rt (lit "HealthCheck") healthy None s)
      else (healthRequest url, false,
            error rt (lit "HealthCheck") failed (Some (StatusOnly (status r))) s)
  | FetchRejects e =>
      (healthRequest url, false,
       error rt (lit "HealthCheck") failed (Some (Caught e)) s)
  end.

Definition checkBackendHealth {R J} :=
  @healthCheck R J (lit "/api/health") (lit "Backend is healthy")
               (lit "Backend health check failed").

Definition checkChromeExtensionAPI {R J} :=
  @healthCheck R J (lit "/api/chrome-extension/health")
               (lit "Chrome Extension API is healthy")
               (lit "Chrome Extension API health check failed").

(** The level test of [getEntries]: [entry.level === filterLevel]. *)
Definition level_eqb (a b : Level) : bool :=
  match a, b with
  | info_l, info_l | warn_l, warn_l | error_l, error_l | success_l, success_l => true
  | _, _ => false
  end.

End DebugApi.

(* ===================================================================== *)
(** ** popup_timer.json: the popup script of the template *)
(* ===================================================================== *)

(** The class [PomodoroTimer] of the template's [popup.js]. Times are whole
    seconds. The elements of [popup.html] the script writes to, the
    notifications it creates and its writes to [chrome.storage.sync] are
    part of the state. The handlers of the two number inputs and the
    storage read-backs ([updateWorkTime], [updateBreakTime], [loadSettings],
    [loadStats]) go through [parseInt] and stored values of any type and
    are left out: [workTime] and [breakTime] are whatever they were set to. *)
Module PomodoroTimer.

(** [String(n)] for an integer. *)
Definition of_Z (z : Z) : jsstring :=
  if (z <? 0)%Z then lit "-" ++ of_N (Z.abs_N z) else of_N (Z.to_N z).

(** [s.padStart(n, c)] for a one-code-unit pad string. *)
Definition padStart (n : nat) (c : N) (s : jsstring) : jsstring :=
  repeat c (n - length s) ++ s.

Definition zero : N := 48.

(** The elements of the popup the script writes. *)
Record Dom := mkDom {
  timeDisplay : jsstring;
  sessionType : jsstring;
  startBtnText : jsstring;
  startBtnDisabled : bool;
  completedSessionsEl : jsstring;
  totalTimeEl : jsstring
}.

Inductive StorageWrite :=
| SaveSettings (workTime breakTime : Z)
| SaveStats (completedSessions totalTime : Z).

Record Timer := mkTimer {
  workTime : Z;
  breakTime : Z;
  currentTime : Z;
  isRunning : bool;
  isWorkSession : bool;
  interval : bool;
  completedSessions : Z;
  totalTime : Z;
  dom : Dom;
  notified : list (jsstring * jsstring);
  stored : list StorageWrite;
  notificationsAvailable : bool
}.

(** The text [updateDisplay] writes for a time:
    [Math.floor(t / 60)] and [t % 60], each padded to two digits. *)
Definition clockText (t : Z) : jsstring :=
  padStart 2 zero (of_Z (t / 60)) ++ lit ":" ++ padStart 2 zero (of_Z (Z.rem t 60)).

Definition sessionText (work : bool) : jsstring :=
  if work then lit "Work Session" else lit "Break Time".

Definition totalText (total : Z) : jsstring :=
  of_Z (total / 3600) ++ lit "h " ++ of_Z (Z.rem total 3600 / 60) ++ lit "m".

Definition updateDisplay (t : Timer) : Timer :=
  mkTimer (workTime t) (breakTime t) (currentTime t) (isRunning t) (isWorkSession t)
          (interval t) (completedSessions t) (totalTime t)
          (mkDom (clockText (currentTime t)) (sessionText (isWorkSession t))
                 (startBtnText (dom t)) (startBtnDisabled (dom t))
                 (of_Z (completedSessions t)) (totalText (totalTime t)))
          (notified t) (stored t) (notificationsAvailable t).

(** The state the constructor leaves: 25 and 5 minutes, a work session,
    stopped, the display written once. The other texts are those of
    [popup.html]. *)
Definition construct (notifications : bool) : Timer :=
  updateDisplay
    (mkTimer (25 * 60) (5 * 60) (25 * 60) false true false 0 0
             (mkDom (lit "25:00") (lit "Work Session") (lit "Start") false
                    (lit "0") (lit "0h"))
             [] [] notifications).

Definition setButton (text : jsstring) (disabled : bool) (d : Dom) : Dom :=
  mkDom (timeDisplay d) (sessionType d) text disabled
        (completedSessionsEl d) (totalTimeEl d).

Definition pause (t : Timer) : Timer :=
  mkTimer (workTime t) (breakTime t) (currentTime t) false (isWorkSession t)
          false (completedSessions t) (totalTime t)
          (setButton (lit "Start") false (dom t))
          (notified t) (stored t) (notificationsAvailable t).

Definition duration (t : Timer) : Z :=
  if isWorkSession t then workTime t else breakTime t.

Definition setCurrentTime (c : Z) (t : Timer) : Timer :=
  mkTimer (workTime t) (breakTime t) c (isRunning t) (isWorkSession t)
          (interval t) (completedSessions t) (totalTime t) (dom t)
          (notified t) (stored t) (notificationsAvailable t).

Definition reset (t : Timer) : Timer :=
  let p := pause t in
  updateDisplay (setCurrentTime (duration p) p).

(** [if (chrome.notifications) chrome.notifications.create({ title, message, ... })] *)
Definition showNotification (title message : jsstring) (t : Timer) : Timer :=
  if notificationsAvailable t then
    mkTimer (workTime t) (breakTime t) (currentTime t) (isRunning t) (isWorkSession t)
            (interval t) (completedSessions t) (totalTime t) (dom t)
            (notified t ++ [(title, message)]) (stored t) (notificationsAvailable t)
  else t.

Definition saveStats (t : Timer) : Timer :=
  mkTimer (workTime t) (breakTime t) (currentTime t) (isRunning t) (isWorkSession t)
          (interval t) (completedSessions t) (totalTime t) (dom t)
          (notified t) (stored t ++ [SaveStats (completedSessions t) (totalTime t)])
          (notificationsAvailable t).

(** The two messages, with their emoji as surrogate pairs. *)
Definition workDone : jsstring * jsstring :=
  (lit "Work session complete!", lit "Time for a break " ++ [55356%N; 57225%N]).
Definition breakDone : jsstring * jsstring :=
  (lit "Break complete!", lit "Back to work " ++ [55357%N; 56490%N]).

Definition sessionComplete (t : Timer) : Timer :=
  let p := pause t in
  let counted :=
    if isWorkSession p then
      showNotification (fst workDone) (snd workDone)
        (mkTimer (workTime p) (breakTime p) (currentTime p) (isRunning p)
                 (isWorkSession p) (interval p) (completedSessions p + 1)
                 (totalTime p + workTime p) (dom p)
                 (notified p) (stored p) (notificationsAvailable p))
    else showNotification (fst breakDone) (snd breakDone) p in
  let flipped :=
    mkTimer (workTime counted) (breakTime counted) (currentTime counted)
            (isRunning counted) (negb (isWorkSession counted)) (interval counted)
            (completedSessions counted) (totalTime counted) (dom counted)
            (notified counted) (stored counted) (notificationsAvailable counted) in
  saveStats (updateDisplay (setCurrentTime (duration flipped) flipped)).

(** The callback of [setInterval(..., 1000)]; a cleared interval fires no
    more. *)
Definition tick (t : Timer) : Timer :=
  if interval t then
    let t1 := updateDisplay (setCurrentTime (currentTime t - 1) t) in
    if (currentTime t1 <=? 0)%Z then sessionComplete t1 else t1
  else t.

Definition start (t : Timer) : Timer :=
  if isRunning t then t
  else
    mkTimer (workTime t) (breakTime t) (currentTime t) true (isWorkSession t)
            true (completedSessions t) (totalTime t)
            (setButton (lit "Running...") true (dom t))
            (notified t) (stored t) (notificationsAvailable t).

Fixpoint ticks (n : nat) (t : Timer) : Timer :=
  match n with
  | O => t
  | S n' => ticks n' (tick t)
  end.

(** What can happen to the popup: a click on one of the three buttons, or
    the interval firing. *)
Inductive Event := ClickStart | ClickPause | ClickReset | Fire.

Definition handle (e : Event) (t : Timer) : Timer :=
  match e with
  | ClickStart => start t
  | ClickPause => pause t
  | ClickReset => reset t
  | Fire => tick t
  end.

Definition play (es : list Event) (t : Timer) : Timer :=
  fold_left (fun acc e => handle e acc) es t.

(** Reading a displayed time back: two digits, a colon, two digits. *)
Definition digit (c : N) : option Z :=
  if (N.leb 48 c && N.leb c 57)%bool then Some (Z.of_N c - 48)%Z else None.

Definition readClockText (s : jsstring) : option Z :=
  match s with
  | [a; b; c; d; e] =>
      match digit a, digit b, digit d, digit e with
      | Some m1, Some m0, Some s1, Some s0 =>
          if N.eqb c 58 then Some ((m1 * 10 + m0) * 60 + (s1 * 10 + s0))%Z else None
      | _, _, _, _ => None
      end
  | _ => None
  end.

(** The state is at rest and consistent: running exactly while the interval
    is armed, a remaining time between one second and the session's
    duration, a total that is the completed work sessions, and a display
    that shows the fields. *)
Definition consistent (t : Timer) : Prop :=
  isRunning t = interval t
  /\ (1 <= currentTime t <= duration t)%Z
  /\ (0 <= completedSessions t)%Z
  /\ totalTime t = (completedSessions t * workTime t)%Z
  /\ timeDisplay (dom t) = clockText (currentTime t)
  /\ sessionType (dom t) = sessionText (isWorkSession t)
  /\ startBtnDisabled (dom t) = isRunning t
  /\ completedSessionsEl (dom t) = of_Z (completedSessions t)
  /\ totalTimeEl (dom t) = totalText (totalTime t).

End PomodoroTimer.

(* ===================================================================== *)
(** ** More concrete runs *)
(* ===================================================================== *)

Module Runs.
Import Creator.

(** The analyze endpoint answers 500 with a JSON error document. *)
Definition analysis_error : Env AnalysisData :=
  mkEnv None Scenario.noon
        (FetchResolves
           (mkResponse 500 (lit "Internal Server Error") (Resolves (lit "{}"))
                       (Resolves (mkAnalysis (Some (lit "boom")) None))))
        0.

(** The generate endpoint answers 200 with a complete extension, after
    three callbacks of the progress interval. *)
Definition generated_body : ExtensionData :=
  mkExtension None (Some (lit "ext-1")) (Some (lit "Timer")) None
              (Some (lit "popup")) (Some (lit "completed")) (Some [])
              (Some (lit "/api/chrome-extension/download/ext-1")).

Definition generated : Env ExtensionData :=
  mkEnv (Some (lit "token")) Scenario.noon
        (FetchResolves
           (mkResponse 200 (lit "OK") (Resolves (lit "{}")) (Resolves generated_body)))
        3.

(** The fresh timer of the popup, started with three seconds left. *)
Definition three_seconds : PomodoroTimer.Timer :=
  PomodoroTimer.start (PomodoroTimer.setCurrentTime 3 (PomodoroTimer.construct true)).

End Runs.

(* ===================================================================== *)
(** ** The extension-type arrays at run time *)
(* ===================================================================== *)

Module Rendering.
Import Creator.

(** [const extensionTypes = [ {...}, ... ]] fixes the binding, not what it
    names: an ordinary array of ordinary objects. Both kinds of object live
    in a heap, newest last, and are named by their position in it; an array
    holds references to its entries. *)
Definition Ref := nat.

Record Heap := mkHeap {
  objects : list ExtensionType;
  arrays : list (list Ref)
}.

(** The entries behind a list of references. *)
Fixpoint entries (objs : list ExtensionType) (refs : list Ref) : list ExtensionType :=
  match refs with
  | [] => []
  | o :: rest =>
      match nth_error objs o with
      | Some x => x :: entries objs rest
      | None => entries objs rest
      end
  end.

(** What the array behind [r] holds at the moment. *)
Definition deref (r : Ref) (h : Heap) : list ExtensionType :=
  entries (objects h) (nth r (arrays h) []).

(** Evaluating an array literal of object literals: the objects, then the
    array that refers to them. *)
Definition load (literal : list ExtensionType) (h : Heap) : Ref * Heap :=
  (length (arrays h),
   mkHeap (objects h ++ literal)
          (arrays h ++ [seq (length (objects h)) (length literal)])).

(** [arr.slice(start, end)] for non-negative bounds: a new array that
    refers to the same entries, from [start] up to [end]. *)
Definition slice (r : Ref) (start stop : nat) (h : Heap) : Ref * Heap :=
  (length (arrays h),
   mkHeap (objects h)
          (arrays h ++ [firstn (stop - start) (skipn start (nth r (arrays h) []))])).

(** [arr.map(f)] for a callback that builds an element from the fields it
    reads off its argument: the elements, in order. *)
Definition mapElements {B} (f : ExtensionType -> B) (r : Ref) (h : Heap) : list B :=
  map f (deref r h).


(** What a write to a field does to the entry behind [o]: afterwards the
    object is [x]. *)
Definition assign (o : Ref) (x : ExtensionType) (h : Heap) : Heap :=
  mkHeap (if (o <? length (objects h))%nat
          then firstn o (objects h) ++ x :: skipn (S o) (objects h)
          else objects h)
         (arrays h).

(** The two modules once loaded: each has evaluated its literal. *)
Definition simpleTypes : Ref := 0%nat.
Definition chromeTypes : Ref := 1%nat.
Definition loaded : Heap :=
  snd (load ChromeExtensionCreator.extensionTypes
         (snd (load SimpleExtensionCreator.extensionTypes (mkHeap [] [])))).


Inductive Component := Simple | Chrome.

Definition extensionTypes (c : Component) : Ref :=
  match c with Simple => simpleTypes | Chrome => chromeTypes end.

(** A type card of step 1 and an entry of the type select of step 2, as
    the JSX builds them from one catalog entry. *)
Record TypeCard := mkCard {
  card_key : jsstring;
  card_title : jsstring;
  card_text : jsstring;
  card_badge_class : jsstring;
  card_badge : jsstring
}.

Record TypeOption := mkOption {
  option_key : jsstring;
  option_value : jsstring;
  option_label : jsstring;
  option_badge : option (jsstring * jsstring)
}.

(** The callbacks of [map]; they read [type.id], [type.name],
    [type.description] and [type.complexity] and write nothing.
    [getComplexityColor] is the same function in both files. *)
Definition card (c : Component) (type : ExtensionType) : TypeCard :=
  mkCard (type_id type) (type_name type) (type_description type)
         ((match c with
           | Simple => lit "inline-block mt-2 px-2 py-1 text-xs rounded "
           | Chrome => lit "mt-2 text-xs "
           end) ++ SimpleExtensionCreator.getComplexityColor (complexity type))
         (complexity type).

Definition typeOption (c : Component) (type : ExtensionType) : TypeOption :=
  match c with
  | Simple =>
      mkOption (type_id type) (type_id type)
               (type_name type ++ lit " (" ++ complexity type ++ lit ")") None
  | Chrome =>
      mkOption (type_id type) (type_id type) (type_name type)
               (Some (SimpleExtensionCreator.getComplexityColor (complexity type),
                      complexity type))
  end.

(** What a render makes of the catalog: under [step === 1],
    [extensionTypes.slice(0, 4).map(...)]; under [step === 2],
    [extensionTypes.map(...)]; nothing in step 3. *)
Inductive TypesView :=
| Cards (cards : list TypeCard)
| Options (options : list TypeOption)
| NoTypes.

Definition render (c : Component) (s : State) (h : Heap) : TypesView * Heap :=
  if (step s =? 1)%Z then
    let (copy, h') := slice (extensionTypes c) 0 4 h in
    (Cards (mapElements (card c) copy h'), h')
  else if (step s =? 2)%Z then
    (Options (mapElements (typeOption c) (extensionTypes c) h), h)
  else (NoTypes, h).

(** What the user can do to a mounted component: type into an input, pick
    a type, click a button or a checkbox. The environment of a click is
    what the browser answers during the handler it starts. "Try Again" and
    the "Clear" button of the debug panel exist in
    [simple-extension-creator.tsx] only. No handler mentions
    [extensionTypes]. *)
Inductive Action :=
| TypePrompt (v : jsstring)
| SelectType (v : jsstring)
| TypeTargetWebsites (v : jsstring)
| ClickAnalyze (env : Env AnalysisData)
| ClickGenerate (env : Env ExtensionData) (cb : Callback)
| ClickPermission (env : Env unit) (permissionId : jsstring)
| ClickBack
| ClickCreateAnother
| ClickDownload (env : Env unit)
| ClickTryAgain
| ClickClearDebugLog.

Definition handle (c : Component) (a : Action) : M unit :=
  match a with
  | TypePrompt v => modify (setPrompt v)
  | SelectType v => modify (setSelectedType v)
  | TypeTargetWebsites v => modify (setTargetWebsites v)
  | ClickAnalyze env =>
      match c with
      | Simple => SimpleExtensionCreator.handleAnalyzePrompt env
      | Chrome => ChromeExtensionCreator.handleAnalyzePrompt env
      end
  | ClickGenerate env cb =>
      match c with
      | Simple => SimpleExtensionCreator.handleGenerateExtension env cb
      | Chrome => ChromeExtensionCreator.handleGenerateExtension env cb
      end
  | ClickPermission env permissionId =>
      match c with
      | Simple => SimpleExtensionCreator.togglePermission env permissionId
      | Chrome => ChromeExtensionCreator.clickPermission permissionId
      end
  | ClickBack => back
  | ClickCreateAnother => createAnother
  | ClickDownload env =>
      match c with
      | Simple => bind (SimpleExtensionCreator.handleDownloadExtension env) (fun _ => ret tt)
      | Chrome => bind ChromeExtensionCreator.handleDownloadExtension (fun _ => ret tt)
      end
  | ClickTryAgain =>
      match c with
      | Simple => SimpleExtensionCreator.tryAgain
      | Chrome => ret tt
      end
  | ClickClearDebugLog =>
      match c with
      | Simple => SimpleExtensionCreator.clearDebugLog
      | Chrome => ret tt
      end
  end.



End Rendering.

(* ===================================================================== *)
(** * Properties *)
(* ===================================================================== *)

(** ** Strings and arrays *)

Lemma str_eqb_eq (a b : jsstring) : str_eqb a b = true <-> a = b.
Proof.
  revert b; induction a as [|x a IH]; intros [|y b]; simpl; split;
    try congruence; try reflexivity.
  - intros H. apply andb_true_iff in H as [Hx Hr].
    apply N.eqb_eq in Hx. apply IH in Hr. congruence.
  - intros H. injection H as -> ->. rewrite N.eqb_refl. simpl. now apply IH.
Qed.

Lemma str_eqb_refl (a : jsstring) : str_eqb a a = true.
Proof. now apply str_eqb_eq. Qed.

Lemma str_eqb_neq (a b : jsstring) : str_eqb a b = false <-> a <> b.
Proof.
  split.
  - intros H E. apply str_eqb_eq in E. congruence.
  - intros H. destruct (str_eqb a b) eqn:E; [|reflexivity].
    apply str_eqb_eq in E. contradiction.
Qed.

Lemma includes_In (arr : list jsstring) (x : jsstring) :
  includes arr x = true <-> In x arr.
Proof.
  unfold includes. rewrite existsb_exists. split.
  - intros (y & Hy & E). apply str_eqb_eq in E. now subst.
  - intros H. exists x. split; [assumption | apply str_eqb_refl].
Qed.

Lemma includes_not_In (arr : list jsstring) (x : jsstring) :
  includes arr x = false <-> ~ In x arr.
Proof.
  rewrite <- includes_In. destruct (includes arr x); split; congruence.
Qed.

Lemma truthy_nonempty (s : jsstring) : truthy s = true <-> s <> [].
Proof. destruct s; simpl; split; congruence. Qed.

Section DropWhile.
Variable A : Type.
Variable p : A -> bool.

Lemma dropWhile_head_kept (l : list A) : head_kept p (dropWhile p l).
Proof.
  induction l as [|x l IH]; simpl; [exact I|].
  destruct (p x) eqn:E; [exact IH | exact E].
Qed.

Lemma dropWhile_fixed (l : list A) : head_kept p l -> dropWhile p l = l.
Proof. destruct l as [|x l]; simpl; [reflexivity|]. now intros ->. Qed.

Lemma dropWhile_suffix (l : list A) : exists w, l = w ++ dropWhile p l.
Proof.
  induction l as [|x l [w IH]]; simpl.
  - now exists [].
  - destruct (p x).
    + exists (x :: w). simpl. now f_equal.
    + now exists [].
Qed.

Lemma head_kept_prefix (u w : list A) :
  head_kept p (u ++ w) -> u <> [] -> head_kept p u.
Proof. destruct u; simpl; [congruence | trivial]. Qed.
End DropWhile.

Lemma trim_clean (s : jsstring) : clean (trim s).
Proof.
  unfold clean, trim, trimEnd, trimStart.
  set (t := dropWhile isTrimmed s).
  assert (Ht : head_kept isTrimmed t) by apply dropWhile_head_kept.
  set (u := dropWhile isTrimmed (rev t)).
  assert (Hu : head_kept isTrimmed u) by apply dropWhile_head_kept.
  split.
  - destruct (dropWhile_suffix isTrimmed (rev t)) as [w Hw]. fold u in Hw.
    assert (Et : t = rev u ++ rev w).
    { rewrite <- rev_app_distr, <- Hw. now rewrite rev_involutive. }
    destruct u as [|x u'] eqn:Eu; [exact I|].
    apply head_kept_prefix with (w := rev w).
    + now rewrite <- Et.
    + simpl. intros H. now apply app_eq_nil in H as [_ H].
  - now rewrite rev_involutive.
Qed.

Lemma clean_trim (s : jsstring) : clean s -> trim s = s.
Proof.
  intros [H1 H2]. unfold trim, trimEnd, trimStart.
  rewrite (dropWhile_fixed _ _ H1), (dropWhile_fixed _ _ H2).
  apply rev_involutive.
Qed.

Lemma trim_idempotent (s : jsstring) : trim (trim s) = trim s.
Proof. apply clean_trim, trim_clean. Qed.

(** Every string that survives [.map(s => s.trim()).filter(Boolean)] is
    non-empty and is its own trimming. *)
Lemma parseTargetWebsites_spec (raw x : jsstring) :
  In x (Creator.parseTargetWebsites raw) <->
  exists piece, In piece (split comma raw) /\ x = trim piece /\ x <> [].
Proof.
  unfold Creator.parseTargetWebsites. rewrite filter_In, in_map_iff, truthy_nonempty.
  split.
  - intros [(piece & E & Hin) Hne]. exists piece. now subst.
  - intros (piece & Hin & E & Hne). split; [|assumption]. exists piece. now subst.
Qed.

(** Some runs of the string functions. *)
(** *** Pieces between commas, and what trimming removes *)

Lemma split_no_sep (sep : N) (a : jsstring) : ~ In sep a -> split sep a = [a].
Proof.
  induction a as [|c a IH]; intros H; [reflexivity|].
  cbn [split]. destruct (N.eqb c sep) eqn:E.
  - apply N.eqb_eq in E. subst. exfalso. apply H. now left.
  - rewrite IH; [reflexivity|]. intros Hin. apply H. now right.
Qed.

Lemma split_app_sep (sep : N) (a b : jsstring) :
  ~ In sep a -> split sep (a ++ sep :: b) = a :: split sep b.
Proof.
  induction a as [|c a IH]; intros H.
  - cbn [app split]. now rewrite N.eqb_refl.
  - cbn [app split]. destruct (N.eqb c sep) eqn:E.
    + apply N.eqb_eq in E. subst. exfalso. apply H. now left.
    + rewrite IH; [reflexivity|]. intros Hin. apply H. now right.
Qed.

Lemma split_pieces (sep : N) (s : jsstring) :
  Forall (fun piece => ~ In sep piece) (split sep s)
  /\ length (split sep s) = S (count_occ N.eq_dec s sep).
Proof.
  induction s as [|c s [IH1 IH2]]; [split; [repeat constructor; tauto | reflexivity]|].
  cbn [split count_occ]. destruct (N.eqb c sep) eqn:E.
  - apply N.eqb_eq in E. subst c. destruct (N.eq_dec sep sep); [|congruence].
    split; [constructor; [tauto | exact IH1] | now rewrite <- IH2].
  - apply N.eqb_neq in E. destruct (N.eq_dec c sep); [congruence|].
    destruct (split sep s) as [|p ps]; [discriminate|].
    inversion IH1 as [|? ? Hp Hps]; subst.
    split; [|exact IH2]. constructor; [|exact Hps].
    simpl. intros [->|Hin]; [congruence | contradiction].
Qed.

Lemma dropWhile_In (A : Type) (p : A -> bool) (x : A) (l : list A) :
  In x (dropWhile p l) -> In x l.
Proof.
  induction l as [|a l IH]; simpl; [tauto|].
  destruct (p a); [intros H; right; now apply IH | simpl; tauto].
Qed.

Lemma trim_In (c : N) (s : jsstring) : In c (trim s) -> In c s.
Proof.
  unfold trim, trimEnd, trimStart. intros H.
  apply in_rev, dropWhile_In, in_rev in H. now apply dropWhile_In in H.
Qed.

Lemma dropWhile_taken (A : Type) (p : A -> bool) (l : list A) :
  exists w, l = w ++ dropWhile p l /\ Forall (fun x => p x = true) w.
Proof.
  induction l as [|x l (w & E & H)]; [exists []; split; [reflexivity | constructor]|].
  simpl. destruct (p x) eqn:Px.
  - exists (x :: w). split; [simpl; congruence | now constructor].
  - exists []. split; [reflexivity | constructor].
Qed.

Lemma trim_stripped (s : jsstring) : stripped s (trim s).
Proof.
  unfold stripped, trim, trimEnd, trimStart.
  destruct (dropWhile_taken isTrimmed s) as (l & El & Hl).
  destruct (dropWhile_taken isTrimmed (rev (dropWhile isTrimmed s))) as (w & Ew & Hw).
  exists l, (rev w). split; [|split; [exact Hl|split; [now apply Forall_rev | apply trim_clean]]].
  rewrite <- rev_app_distr, <- Ew, rev_involutive. exact El.
Qed.

Lemma split_nonempty (sep : N) (s : jsstring) : split sep s <> [].
Proof.
  destruct s as [|c s]; [discriminate|]. cbn [split].
  destruct (N.eqb c sep); [discriminate|]. destruct (split sep s); discriminate.
Qed.

Lemma join_split (sep : N) (s : jsstring) : join [sep] (split sep s) = s.
Proof.
  induction s as [|c s IH]; [reflexivity|].
  cbn [split]. pose proof (split_nonempty sep s) as Hne.
  destruct (split sep s) as [|p ps]; [congruence|].
  destruct (N.eqb c sep) eqn:E.
  - apply N.eqb_eq in E. subst c.
    change (join [sep] ([] :: p :: ps)) with ([] ++ [sep] ++ join [sep] (p :: ps)).
    now rewrite IH.
  - destruct ps as [|q ps].
    + cbn [join] in *. now rewrite IH.
    + change (join [sep] ((c :: p) :: q :: ps)) with (c :: (p ++ [sep] ++ join [sep] (q :: ps))).
      change (join [sep] (p :: q :: ps)) with (p ++ [sep] ++ join [sep] (q :: ps)) in IH.
      now rewrite IH.
Qed.

Lemma stripped_map_trim (pieces : list jsstring) : Forall2 stripped pieces (map trim pieces).
Proof. induction pieces; constructor; [apply trim_stripped | assumption]. Qed.

Lemma clean_not_blank (x : jsstring) :
  x <> [] -> clean x -> exists c, In c x /\ isTrimmed c = false.
Proof.
  destruct x as [|c x]; [congruence|]. intros _ [H _]. exists c. split; [now left | exact H].
Qed.





Example trim_ascii : trim (lit "  a b  ") = lit "a b".
Proof. reflexivity. Qed.

Example trim_unicode : trim [12288%N; 97%N; 8233%N; 10%N] = [97%N].
Proof. reflexivity. Qed.

Example split_keeps_empty_pieces : split comma (lit "a,,b,") = [lit "a"; []; lit "b"; []].
Proof. reflexivity. Qed.

Example split_empty : split comma [] = [[]].
Proof. reflexivity. Qed.

Example parse_placeholder :
  Creator.parseTargetWebsites (lit "example.com, *.google.com, https://github.com/*")
  = [lit "example.com"; lit "*.google.com"; lit "https://github.com/*"].
Proof. reflexivity. Qed.

Example parse_blank_pieces : Creator.parseTargetWebsites (lit " , ,") = [].
Proof. reflexivity. Qed.

(** ** The handlers *)

Import Creator.

Lemma allStrings_map (l : list jsstring) : allStrings (map JStr l) = Some l.
Proof. induction l as [|x l IH]; simpl; [reflexivity | now rewrite IH]. Qed.

Lemma generateBody_target_websites (s : State) (r : Request) :
  body r = Some (generateBody s) ->
  sentTargetWebsites r = Some (parseTargetWebsites (targetWebsites s)).
Proof.
  intros E. unfold sentTargetWebsites, bodyField. rewrite E.
  unfold generateBody, field.
  change (find _ _) with
    (Some (lit "target_websites",
           JArr (map JStr (parseTargetWebsites (targetWebsites s))))).
  simpl. apply allStrings_map.
Qed.

Lemma generateBody_extension_type (s : State) (r : Request) :
  body r = Some (generateBody s) -> sentExtensionType r = Some (selectedType s).
Proof.
  intros E. unfold sentExtensionType, bodyField. now rewrite E.
Qed.


(** The progress interval touches the progress value and its own timer,
    nothing else. *)
Lemma elapse_shape (n : nat) (s : State) :
  exists z b, elapse n s =
    mkState (step s) (prompt s) (selectedType s) (selectedPermissions s) (targetWebsites s)
            (isGenerating s) z (analysis s) (generatedExtension s)
            (debugLog s) (network s) (consoleLines s) (clockReads s) b.
Proof.
  revert s; induction n as [|n IH]; intros s; simpl.
  - exists (generationProgress s), (progressInterval s). now destruct s.
  - destruct (IH (progressTick s)) as (z & b & ->).
    unfold progressTick.
    destruct (progressInterval s); [destruct (generationProgress s >=? 95)%Z|];
      simpl; eauto.
Qed.

Ltac settle_elapse :=
  match goal with
  | |- context [elapse ?n ?s] =>
      let z := fresh "z" in
      let b := fresh "b" in
      destruct (elapse_shape n s) as (z & b & ->)
  end.

Ltac step_handler := cbn -[lit of_N app elapse trim parseTargetWebsites].

Ltac run_handler :=
  unfold SimpleExtensionCreator.handleGenerateExtension,
         SimpleExtensionCreator.handleAnalyzePrompt,
         ChromeExtensionCreator.handleGenerateExtension,
         ChromeExtensionCreator.handleAnalyzePrompt,
         try_catch_finally, fetch, bind, modify,
         SimpleExtensionCreator.addDebugLog, ChromeExtensionCreator.consoleError,
         invoke, when, ret, throw, await;
  step_handler;
  try settle_elapse.

(** Case analysis on everything the environment of a generate run decides. *)
Ltac split_generate f cb :=
  let e := fresh "e" in
  let st := fresh "st" in
  let stt := fresh "stt" in
  let tx := fresh "tx" in
  let js := fresh "js" in
  let x := fresh "x" in
  let g := fresh "g" in
  destruct f as [e|[st stt tx js]]; unfold ok; step_handler;
  [ | destruct (N.leb 200 st && N.leb st 299)%bool; step_handler;
      [ destruct js as [x|e]; step_handler;
        [ destruct cb as [g|]; step_handler; [destruct (g x); step_handler|] | ]
      | destruct tx; step_handler ] ].

Lemma simple_generate_sends env cb (s : State) :
  network (final (SimpleExtensionCreator.handleGenerateExtension env cb s))
  = network s ++ [SimpleExtensionCreator.generateRequest env s].
Proof.
  destruct env as [tok clk f n]. run_handler.
  split_generate f cb; reflexivity.
Qed.

Lemma chrome_generate_sends env cb (s : State) :
  network (final (ChromeExtensionCreator.handleGenerateExtension env cb s))
  = network s ++ [ChromeExtensionCreator.generateRequest s].
Proof.
  destruct env as [tok clk f n]. run_handler.
  destruct f as [e|[st stt tx js]]; step_handler; [reflexivity|].
  destruct js as [x|e]; step_handler; [|reflexivity].
  destruct cb as [g|]; step_handler; [destruct (g x)|]; reflexivity.
Qed.

(** The simple creator always lands on step 3 with a record stored: the
    parsed body when nothing was thrown, the failure record otherwise. *)
Lemma simple_generate_lands env cb (s : State) :
  let o := SimpleExtensionCreator.handleGenerateExtension env cb s in
  returns o = true
  /\ step (final o) = 3%Z
  /\ isGenerating (final o) = false
  /\ generatedExtension (final o) =
       match SimpleExtensionCreator.generateFailure env cb with
       | Some e =>
           Some (SimpleExtensionCreator.failedExtension
                   (SimpleExtensionCreator.errorMessageOr
                      (lit "Extension generation failed. Please try again.") e))
       | None => SimpleExtensionCreator.delivered env
       end.
Proof.
  destruct env as [tok clk f n]. unfold SimpleExtensionCreator.generateFailure,
    SimpleExtensionCreator.delivered. run_handler.
  split_generate f cb; repeat split; reflexivity.
Qed.

(** ** The transmitted target websites *)

(** C7. For every raw target-websites input, both creators put the same
    [target_websites] array in the generate request, and it is made as
    follows: the input is cut at its commas into pieces (joining the pieces
    with commas gives the input back, and no piece contains a comma), each
    piece loses the whitespace at its two ends, and the pieces of which
    nothing is left are dropped, the others keep their order. No
    transmitted element is empty or whitespace-only: each is non-empty,
    holds a code unit that is not whitespace, neither starts nor ends with
    whitespace, holds no comma, and is left unchanged by trimming.
    Whitespace includes TAB, LF, VT, FF, CR, SP, NBSP, LS, PS, the
    ideographic space and the byte-order mark. *)
Theorem C7_target_websites_are_non_blank :
  forall (env : Env ExtensionData) (cb : Callback) (s : State),
    let sent := parseTargetWebsites (targetWebsites s) in
    (exists req,
        network (final (SimpleExtensionCreator.handleGenerateExtension env cb s))
        = network s ++ [req]
        /\ sentTargetWebsites req = Some sent)
    /\ (exists req,
           network (final (ChromeExtensionCreator.handleGenerateExtension env cb s))
           = network s ++ [req]
           /\ sentTargetWebsites req = Some sent)
    /\ (exists pieces cores,
           join [comma] pieces = targetWebsites s
           /\ Forall (fun piece => ~ In comma piece) pieces
           /\ Forall2 stripped pieces cores
           /\ sent = filter (fun core => negb (Nat.eqb (length core) 0)) cores)
    /\ Forall (fun x => x <> []
                        /\ (exists c, In c x /\ isTrimmed c = false)
                        /\ clean x
                        /\ ~ In comma x
                        /\ trim x <> [] /\ trim x = x) sent
    /\ whitespaceOnly [9; 10; 11; 12; 13; 32; 160; 8232; 8233; 12288; 65279]%N.
Proof.
  intros env cb s sent. split; [|split; [|split; [|split]]];
    [ | | | |repeat constructor].
  - eexists. split; [apply simple_generate_sends|].
    now apply generateBody_target_websites.
  - eexists. split; [apply chrome_generate_sends|].
    now apply generateBody_target_websites.
  - exists (split comma (targetWebsites s)), (map trim (split comma (targetWebsites s))).
    split; [apply join_split|]. split; [apply split_pieces|].
    split; [apply stripped_map_trim|].
    apply filter_ext. now intros [|c x].
  - apply Forall_forall. intros x Hx.
    apply parseTargetWebsites_spec in Hx as (piece & Hin & -> & Hne).
    assert (Hc : clean (trim piece)) by apply trim_clean.
    split; [exact Hne|]. split; [now apply clean_not_blank|]. split; [exact Hc|].
    split.
    + intros Hcomma. apply trim_In in Hcomma.
      destruct (split_pieces comma (targetWebsites s)) as [Hp _].
      rewrite Forall_forall in Hp. exact (Hp piece Hin Hcomma).
    + rewrite trim_idempotent. auto.
Qed.

(** ** Toggling a permission *)

Lemma filter_other_absent (id : jsstring) (l : list jsstring) :
  ~ In id l -> filter (fun p => negb (str_eqb p id)) l = l.
Proof.
  induction l as [|a l IH]; simpl; [reflexivity|]. intros H.
  destruct (str_eqb a id) eqn:E; simpl.
  - apply str_eqb_eq in E. subst. tauto.
  - f_equal. tauto.
Qed.

Lemma filter_other_In (id x : jsstring) (l : list jsstring) :
  In x (filter (fun p => negb (str_eqb p id)) l) <-> In x l /\ x <> id.
Proof.
  rewrite filter_In, negb_true_iff, str_eqb_neq. tauto.
Qed.

Lemma filter_other_count (id x : jsstring) (l : list jsstring) :
  x <> id ->
  count_occ jsstring_eq_dec (filter (fun p => negb (str_eqb p id)) l) x
  = count_occ jsstring_eq_dec l x.
Proof.
  intros Hx. induction l as [|a l IH]; simpl; [reflexivity|].
  destruct (str_eqb a id) eqn:E; simpl.
  - apply str_eqb_eq in E. subst a.
    destruct (jsstring_eq_dec id x); [congruence | exact IH].
  - destruct (jsstring_eq_dec a x); now rewrite IH.
Qed.

Lemma filter_other_restore (id : jsstring) (l : list jsstring) :
  NoDup l -> In id l ->
  Permutation (filter (fun p => negb (str_eqb p id)) l ++ [id]) l.
Proof.
  induction 1 as [|a l Ha Hl IH]; simpl; [tauto|]. intros [->|Hin].
  - rewrite str_eqb_refl. simpl. rewrite filter_other_absent by assumption.
    apply Permutation_sym, Permutation_cons_append.
  - destruct (str_eqb a id) eqn:E.
    + apply str_eqb_eq in E. subst. contradiction.
    + simpl. constructor. now apply IH.
Qed.

Lemma toggle_absent (id : jsstring) (l : list jsstring) :
  ~ In id l -> SimpleExtensionCreator.togglePermissionUpdate id l = l ++ [id].
Proof.
  intros H. unfold SimpleExtensionCreator.togglePermissionUpdate.
  apply includes_not_In in H. now rewrite H.
Qed.

Lemma toggle_present (id : jsstring) (l : list jsstring) :
  In id l ->
  SimpleExtensionCreator.togglePermissionUpdate id l
  = filter (fun p => negb (str_eqb p id)) l.
Proof.
  intros H. unfold SimpleExtensionCreator.togglePermissionUpdate.
  apply includes_In in H. now rewrite H.
Qed.

Lemma toggle_twice (id : jsstring) (l : list jsstring) :
  NoDup l ->
  Permutation
    (SimpleExtensionCreator.togglePermissionUpdate id
       (SimpleExtensionCreator.togglePermissionUpdate id l)) l.
Proof.
  intros Hnd. destruct (in_dec jsstring_eq_dec id l) as [Hin|Hout].
  - rewrite (toggle_present _ _ Hin).
    rewrite toggle_absent by (rewrite filter_other_In; tauto).
    now apply filter_other_restore.
  - rewrite (toggle_absent _ _ Hout).
    rewrite toggle_present by (apply in_or_app; simpl; tauto).
    rewrite filter_app, filter_other_absent by assumption.
    simpl. rewrite str_eqb_refl. simpl. now rewrite app_nil_r.
Qed.

Example toggle_adds :
  SimpleExtensionCreator.togglePermissionUpdate (lit "tabs") [lit "storage"]
  = [lit "storage"; lit "tabs"].
Proof. reflexivity. Qed.

Example toggle_removes :
  SimpleExtensionCreator.togglePermissionUpdate (lit "storage")
    [lit "storage"; lit "tabs"]
  = [lit "tabs"].
Proof. reflexivity. Qed.

(** Toggling twice can reorder: the involution is on the elements, not on
    the list. *)
Example toggle_twice_reorders :
  SimpleExtensionCreator.togglePermissionUpdate (lit "storage")
    (SimpleExtensionCreator.togglePermissionUpdate (lit "storage")
       [lit "storage"; lit "tabs"])
  = [lit "tabs"; lit "storage"].
Proof. reflexivity. Qed.

(** C10. On a duplicate-free selection, [togglePermission] applied twice
    with the same id gives back a list with exactly the elements of the
    original; applied once to an absent id it appends that id, which then
    occurs exactly once; applied once to a present id it removes every
    occurrence of it and keeps every other element as often as before. *)
Theorem C10_toggle_is_set_involution :
  forall (l : list jsstring) (id : jsstring),
    NoDup l ->
    (forall (J : Type) (env : Env J) (s : State),
        selectedPermissions
          (final (SimpleExtensionCreator.togglePermission env id s))
        = SimpleExtensionCreator.togglePermissionUpdate id (selectedPermissions s))
    /\ (forall x,
           In x (SimpleExtensionCreator.togglePermissionUpdate id
                   (SimpleExtensionCreator.togglePermissionUpdate id l))
           <-> In x l)
    /\ Permutation
         (SimpleExtensionCreator.togglePermissionUpdate id
            (SimpleExtensionCreator.togglePermissionUpdate id l)) l
    /\ (~ In id l ->
        SimpleExtensionCreator.togglePermissionUpdate id l = l ++ [id]
        /\ count_occ jsstring_eq_dec
             (SimpleExtensionCreator.togglePermissionUpdate id l) id = 1%nat)
    /\ (In id l ->
        ~ In id (SimpleExtensionCreator.togglePermissionUpdate id l)
        /\ count_occ jsstring_eq_dec
             (SimpleExtensionCreator.togglePermissionUpdate id l) id = 0%nat
        /\ forall x, x <> id ->
             count_occ jsstring_eq_dec
               (SimpleExtensionCreator.togglePermissionUpdate id l) x
             = count_occ jsstring_eq_dec l x).
Proof.
  intros l id Hnd. split; [reflexivity|].
  pose proof (toggle_twice id Hnd) as HP.
  split; [|split; [exact HP|split]].
  - intros x. split; intros H.
    + eapply Permutation_in; [exact HP | exact H].
    + eapply Permutation_in; [apply Permutation_sym, HP | exact H].
  - intros Hout. rewrite (toggle_absent _ _ Hout). split; [reflexivity|].
    rewrite count_occ_app. simpl.
    destruct (jsstring_eq_dec id id); [|congruence].
    apply (count_occ_not_In jsstring_eq_dec) in Hout. lia.
  - intros Hin. rewrite (toggle_present _ _ Hin).
    assert (Hgone : ~ In id (filter (fun p => negb (str_eqb p id)) l))
      by (rewrite filter_other_In; tauto).
    split; [exact Hgone|]. split.
    + now apply (count_occ_not_In jsstring_eq_dec).
    + intros x Hx. now apply filter_other_count.
Qed.

(** C10, at the selection storage, tabs and the id tabs. *)
Lemma C10_toggle_witness :
  NoDup [lit "storage"; lit "tabs"]
  /\ Permutation
       (SimpleExtensionCreator.togglePermissionUpdate (lit "tabs")
          (SimpleExtensionCreator.togglePermissionUpdate (lit "tabs")
             [lit "storage"; lit "tabs"]))
       [lit "storage"; lit "tabs"]
  /\ ~ In (lit "tabs")
       (SimpleExtensionCreator.togglePermissionUpdate (lit "tabs")
          [lit "storage"; lit "tabs"]).
Proof.
  assert (H : NoDup [lit "storage"; lit "tabs"]).
  { repeat constructor; simpl; intuition discriminate. }
  destruct (C10_toggle_is_set_involution (lit "tabs") H)
    as (_ & _ & HP & _ & Hin).
  split; [exact H|]. split; [exact HP|].
  apply Hin. simpl. tauto.
Defined.

(** ** The debug service keeps the most recent entries *)

Import DebugService.

Lemma slice_from_last_n (A : Type) (k : nat) (l : list A) :
  (0 < k)%nat -> slice_from (- Z.of_nat k) l = last_n k l.
Proof.
  intros Hk. unfold slice_from, last_n.
  replace (- Z.of_nat k <? 0)%Z with true by (symmetry; apply Z.ltb_lt; lia).
  f_equal. lia.
Qed.

Lemma last_n_short (A : Type) (k : nat) (l : list A) :
  (length l <= k)%nat -> last_n k l = l.
Proof.
  intros H. unfold last_n. now replace (length l - k)%nat with 0%nat by lia.
Qed.

Lemma last_n_length (A : Type) (k : nat) (l : list A) :
  length (last_n k l) = Nat.min k (length l).
Proof. unfold last_n. rewrite length_skipn. lia. Qed.

Lemma last_n_push (A : Type) (k : nat) (l : list A) (x : A) :
  (0 < k)%nat -> last_n k (last_n k l ++ [x]) = last_n k (l ++ [x]).
Proof.
  intros Hk. destruct (Nat.le_gt_cases (length l) k) as [Hs|Hl].
  - now rewrite (last_n_short _ Hs).
  - assert (Hlen : length (last_n k l) = k) by (rewrite last_n_length; lia).
    unfold last_n at 1. rewrite length_app, Hlen. simpl length.
    replace (k + 1 - k)%nat with 1%nat by lia.
    rewrite skipn_app, Hlen.
    replace (1 - k)%nat with 0%nat by lia.
    unfold last_n. rewrite skipn_skipn, length_app, skipn_app. simpl length.
    replace (length l + 1 - k - length l)%nat with 0%nat by lia.
    replace (1 + (length l - k))%nat with (length l + 1 - k)%nat by lia.
    reflexivity.
Qed.

(** The four wrappers are [log] at a fixed level. *)
Lemma wrappers_are_log (D : Type) (rt : Runtime) (l : Level) (c m : jsstring) (d : option D) :
  perform (CallLog rt l c m d) = log rt l c m d
  /\ perform (CallInfo rt c m d) = log rt info_l c m d
  /\ perform (CallWarn rt c m d) = log rt warn_l c m d
  /\ perform (CallError rt c m d) = log rt error_l c m d
  /\ perform (CallSuccess rt c m d) = log rt success_l c m d.
Proof. repeat split. Qed.

Lemma log_entries (D : Type) (rt : Runtime) (l : Level) (c m : jsstring) (d : option D)
      (s : Service D) :
  entries (log rt l c m d s)
  = last_n (Z.to_nat maxEntries) (entries s ++ [make_entry rt l c m d]).
Proof.
  unfold log. cbn [entries].
  destruct (Z.of_nat (length (entries s ++ [make_entry rt l c m d])) >? maxEntries)%Z eqn:E.
  - change (- maxEntries)%Z with (- Z.of_nat (Z.to_nat maxEntries))%Z.
    apply slice_from_last_n. unfold maxEntries. lia.
  - symmetry. apply last_n_short.
    rewrite Z.gtb_ltb in E. apply Z.ltb_ge in E. unfold maxEntries in *. lia.
Qed.

Lemma perform_entries (D : Type) (k : Call D) (s : Service D) :
  entries (perform k s) = last_n (Z.to_nat maxEntries) (entries s ++ [appended k]).
Proof. destruct k; apply log_entries. Qed.

Lemma run_snoc (D : Type) (ks : list (Call D)) (k : Call D) (s : Service D) :
  run (ks ++ [k]) s = perform k (run ks s).
Proof. unfold run. now rewrite fold_left_app. Qed.

Lemma run_entries (D : Type) (ks : list (Call D)) :
  entries (run ks (fresh D)) = last_n (Z.to_nat maxEntries) (map (@appended D) ks).
Proof.
  induction ks as [|k ks IH] using rev_ind; [reflexivity|].
  rewrite run_snoc, perform_entries, IH, map_app. simpl map.
  apply last_n_push. unfold maxEntries. lia.
Qed.

(** One hundred and one [info] calls on a fresh service: the first entry is
    gone, the other hundred are kept in order. *)
Example hundred_and_one_calls :
  let call := fun i : nat =>
                CallInfo (mkRuntime (of_N (N.of_nat i)) None) (lit "API") (lit "call")
                         (@None unit) in
  map (@timestamp unit) (entries (run (map call (seq 0 101)) (fresh unit)))
  = map (fun i => of_N (N.of_nat i)) (seq 1 100).
Proof. vm_compute. reflexivity. Qed.

(** C9. After every call of [log], [info], [warn], [error] or [success],
    from any state of the service, at most [maxEntries] (100) entries are
    kept, and they are the last 100 of the old entries followed by the new
    one, in that order. Hence after any sequence of calls on a fresh service
    the entries are exactly the most recently appended ones, at most 100, in
    the order they were appended. *)
Theorem C9_debug_entries_bounded_and_recent :
  forall (D : Type) (ks : list (Call D)) (k : Call D) (s : Service D),
    maxEntries = 100%Z
    /\ (length (entries (perform k s)) <= Z.to_nat maxEntries)%nat
    /\ entries (perform k s)
       = last_n (Z.to_nat maxEntries) (entries s ++ [appended k])
    /\ (length (entries (run ks (fresh D))) <= Z.to_nat maxEntries)%nat
    /\ entries (run ks (fresh D))
       = last_n (Z.to_nat maxEntries) (map (@appended D) ks).
Proof.
  intros D ks k s. split; [reflexivity|].
  rewrite perform_entries, run_entries, !last_n_length. repeat split; lia.
Qed.

(** ** The extension-type catalog *)

Section RenderingFacts.
Import Rendering.






Example step1_cards :
  fst (render Simple initial loaded)
  = Cards (map (card Simple) SimpleExtensionCreator.typeCards).
Proof. reflexivity. Qed.

(** The copy of [slice] shares its entries with the catalog: a write to an
    entry reached through the copy would show in the catalog. *)
Example slice_shares_entries :
  let (copy, h) := slice simpleTypes 0 4 loaded in
  nth copy (arrays h) [] = [0; 1; 2; 3]%nat
  /\ nth simpleTypes (arrays h) [] = [0; 1; 2; 3; 4]%nat
  /\ map type_name (deref simpleTypes (assign 0 (mkType [] [] [] [] []) h))
     = [[]; lit "Content Script Extension"; lit "Background Extension";
        lit "DevTools Extension"; lit "Options Extension"].
Proof. repeat split. Qed.

End RenderingFacts.


(** ** Analysing a prompt *)

Ltac split_analyze f :=
  let e := fresh "e" in
  let st := fresh "st" in
  let stt := fresh "stt" in
  let tx := fresh "tx" in
  let js := fresh "js" in
  let x := fresh "x" in
  destruct f as [e|[st stt tx js]]; unfold ok; step_handler;
  [ | destruct (N.leb 200 st && N.leb st 299)%bool; step_handler;
      [ destruct js as [x|e]; step_handler;
        [ destruct (firstSuggestion x); step_handler;
          destruct (suggestedPermissions x); step_handler | ]
      | destruct tx; step_handler ] ].

(** The request the simple creator issues for a prompt. *)
Lemma simple_analyze_sends (env : Env AnalysisData) (s : State) :
  truthy (trim (prompt s)) = true ->
  network (final (SimpleExtensionCreator.handleAnalyzePrompt env s))
  = network s ++
    [mkRequest analyze_url POST (SimpleExtensionCreator.requestHeaders env)
               (Some (JObj [(lit "prompt", JStr (prompt s))]))].
Proof.
  intros H. destruct env as [tok clk f n].
  unfold SimpleExtensionCreator.handleAnalyzePrompt. rewrite H.
  run_handler. split_analyze f; reflexivity.
Qed.

(** The request [ChromeExtensionCreator] issues for a prompt. *)
Lemma chrome_analyze_sends (env : Env AnalysisData) (s : State) :
  truthy (trim (prompt s)) = true ->
  network (final (ChromeExtensionCreator.handleAnalyzePrompt env s))
  = network s ++ [mkRequest analyze_url GET [content_type_json] None].
Proof.
  intros H. destruct env as [tok clk f n].
  unfold ChromeExtensionCreator.handleAnalyzePrompt. rewrite H.
  run_handler.
  destruct f as [e|[st stt tx js]]; step_handler; [reflexivity|].
  destruct js as [x|e]; step_handler; [|reflexivity].
  destruct (firstSuggestion x); step_handler;
    destruct (suggestedPermissions x); reflexivity.
Qed.

(** C1. With the prompt "timer" typed in, [handleAnalyzePrompt] of
    [ChromeExtensionCreator] sends the analyze request as a GET without a
    body, so the prompt is not transmitted; the simple creator sends a POST
    whose JSON body holds the prompt. *)
Theorem C1_analyze_sent_as_get_without_body :
  forall env : Env AnalysisData,
    network (final (ChromeExtensionCreator.handleAnalyzePrompt env Scenario.described))
    = [mkRequest analyze_url GET [content_type_json] None]
    /\ map sentPrompt
         (network (final (ChromeExtensionCreator.handleAnalyzePrompt env Scenario.described)))
       = [None]
    /\ map method
         (network (final (SimpleExtensionCreator.handleAnalyzePrompt env Scenario.described)))
       = [POST]
    /\ map sentPrompt
         (network (final (SimpleExtensionCreator.handleAnalyzePrompt env Scenario.described)))
       = [Some (lit "timer")].
Proof.
  intros env.
  rewrite chrome_analyze_sends, simple_analyze_sends by reflexivity.
  repeat split.
Qed.

(** A prompt that is blank after trimming stops both handlers at their
    guard. *)
Lemma simple_analyze_blank (env : Env AnalysisData) (s : State) :
  trim (prompt s) = [] ->
  SimpleExtensionCreator.handleAnalyzePrompt env s
  = SimpleExtensionCreator.addDebugLog env (lit "No prompt provided")
      SimpleExtensionCreator.error s.
Proof.
  intros H. unfold SimpleExtensionCreator.handleAnalyzePrompt. now rewrite H.
Qed.

Lemma chrome_analyze_blank (env : Env AnalysisData) (s : State) :
  trim (prompt s) = [] ->
  ChromeExtensionCreator.handleAnalyzePrompt env s = Done tt s.
Proof.
  intros H. unfold ChromeExtensionCreator.handleAnalyzePrompt. now rewrite H.
Qed.

(** C6. For a prompt that is empty after trimming, the analyze operation
    fails with [InvalidInput] and its endpoint answers with a 4xx and no
    analysis result; in both creators [handleAnalyzePrompt] returns without
    issuing a request and leaves the analysis, the selected type and
    permissions, the step, the spinner flag and the progress as they were
    (the simple creator adds one line to its debug log, the other creator
    changes nothing at all). *)
Theorem C6_blank_prompt_is_not_analysed :
  forall (provider : jsstring -> option Backend.AnalysisResult)
         (ranking : jsstring -> list (Backend.Archetype * N))
         (env : Env AnalysisData) (s : State),
    trim (prompt s) = [] ->
    Backend.analyze provider ranking (prompt s) = inl Backend.InvalidInput
    /\ (400 <= Backend.code (Backend.post_analyze provider ranking (prompt s)) < 500)%N
    /\ Backend.payload (Backend.post_analyze provider ranking (prompt s)) = None
    /\ (let o := SimpleExtensionCreator.handleAnalyzePrompt env s in
        returns o = true
        /\ network (final o) = network s
        /\ analysis (final o) = analysis s
        /\ selectedType (final o) = selectedType s
        /\ selectedPermissions (final o) = selectedPermissions s
        /\ step (final o) = step s
        /\ isGenerating (final o) = isGenerating s
        /\ generationProgress (final o) = generationProgress s
        /\ generatedExtension (final o) = generatedExtension s)
    /\ ChromeExtensionCreator.handleAnalyzePrompt env s = Done tt s.
Proof.
  intros provider ranking env s H.
  assert (Ha : Backend.analyze provider ranking (prompt s) = inl Backend.InvalidInput).
  { unfold Backend.analyze. now rewrite H. }
  split; [exact Ha|].
  unfold Backend.post_analyze. rewrite Ha. cbn [Backend.code Backend.payload].
  split; [lia|]. split; [reflexivity|]. split.
  - rewrite (simple_analyze_blank env s H). repeat split.
  - now apply chrome_analyze_blank.
Qed.

(** C6, at a prompt of three spaces. *)
Lemma C6_blank_prompt_witness :
  trim (prompt Scenario.blank) = []
  /\ Backend.analyze Scenario.provider Scenario.ranking (prompt Scenario.blank)
     = inl Backend.InvalidInput
  /\ network (final (SimpleExtensionCreator.handleAnalyzePrompt
                       Scenario.analysed Scenario.blank)) = []
  /\ ChromeExtensionCreator.handleAnalyzePrompt Scenario.analysed Scenario.blank
     = Done tt Scenario.blank.
Proof.
  assert (H : trim (prompt Scenario.blank) = []) by reflexivity.
  destruct (C6_blank_prompt_is_not_analysed Scenario.provider Scenario.ranking
              Scenario.analysed Scenario.blank H)
    as (Ha & _ & _ & (_ & Hn & _) & Hc).
  split; [exact H|]. split; [exact Ha|]. split; [exact Hn | exact Hc].
Defined.

(** ** Generating an extension *)

(** C5. When [fetch] rejects, [handleGenerateExtension] of
    [ChromeExtensionCreator] returns with the spinner off but with the step
    still 2 and no record stored: the configuration form is shown again and
    no result screen. When the server answers 500 with a JSON document the
    same handler stores the document and shows the success card. The simple
    creator, on the same two runs, shows the failure card with the reason. *)
Theorem C5_generate_failure_shows_no_result :
  forall cb : Callback,
    (let o := ChromeExtensionCreator.handleGenerateExtension
                (Scenario.offline ExtensionData) cb Scenario.configured in
     returns o = true
     /\ spinner (final o) = false
     /\ step (final o) = 2%Z
     /\ generatedExtension (final o) = None
     /\ ChromeExtensionCreator.screen (final o) = ConfigureForm)
    /\ ChromeExtensionCreator.screen
         (final (ChromeExtensionCreator.handleGenerateExtension
                   Scenario.server_error None Scenario.configured))
       = SuccessScreen Scenario.server_error_body
    /\ SimpleExtensionCreator.screen
         (final (SimpleExtensionCreator.handleGenerateExtension
                   (Scenario.offline ExtensionData) cb Scenario.configured))
       = FailureScreen (lit "Failed to fetch")
    /\ SimpleExtensionCreator.screen
         (final (SimpleExtensionCreator.handleGenerateExtension
                   Scenario.server_error None Scenario.configured))
       = FailureScreen (lit "Extension generation failed: 500 Internal Server Error").
Proof.
  intros cb. repeat split.
Qed.

(** ** The generation back end *)

Section BackendFacts.
Import Backend.
Variable catalog : list jsstring.
Variable templates : Archetype -> option FileSet.
Variable packager : N -> FileSet -> Manifest -> option jsstring.

(** Every returned record went through one of the three paths of
    [generate]. *)
Lemma generate_paths (fresh : N) (r : GenerationRequest) (x : Artifact) :
  generate catalog templates packager fresh r = Returned x ->
  exists a,
    validate catalog r = inr a
    /\ archetype x = a
    /\ declared x = req_permissions r
    /\ ((exists e, build templates a r = inl e
                   /\ state x = Failed /\ error_detail x = Some e
                   /\ art_manifest x = None /\ handle x = None
                   /\ history x = [Pending; Building; Failed])
        \/ (exists fs, build templates a r = inr fs
                       /\ packager fresh fs (assemble a r) = None
                       /\ state x = Failed /\ error_detail x = Some PackagingError
                       /\ art_manifest x = Some (assemble a r) /\ handle x = None
                       /\ history x = [Pending; Building; Packaging; Failed])
        \/ (exists fs h, build templates a r = inr fs
                         /\ packager fresh fs (assemble a r) = Some h
                         /\ state x = Complete /\ error_detail x = None
                         /\ art_manifest x = Some (assemble a r) /\ handle x = Some h
                         /\ history x = [Pending; Building; Packaging; Complete])).
Proof.
  unfold generate. destruct (validate catalog r) as [e|a]; [discriminate|].
  intros H. exists a. split; [reflexivity|].
  destruct (build templates a r) as [e|fs] eqn:Eb.
  - injection H as <-. repeat split. left. exists e. repeat split.
  - destruct (packager fresh fs (assemble a r)) as [h|] eqn:Ep;
      injection H as <-; repeat split; right; [right|left].
    + exists fs, h. repeat split. exact Ep.
    + exists fs. repeat split. exact Ep.
Qed.

Lemma well_shaped_validates (r : GenerationRequest) :
  well_shaped catalog r = true ->
  exists a, validate catalog r = inr a
            /\ (is_content_script a && no_patterns r)%bool = false.
Proof.
  unfold well_shaped. destruct (validate catalog r) as [e|a]; [discriminate|].
  intros H. exists a. split; [reflexivity|]. now apply negb_true_iff.
Qed.

End BackendFacts.

(** C2. The permission list inside the manifest of the popup_timer template
    equals the template's top-level permission list, as a list and hence as
    a set. For every artifact the generation operation returns, the declared
    permission set is that of the request, and a manifest, when one was
    assembled, declares exactly this set (same elements, no extras, no
    omissions); a complete artifact always has a manifest. *)
Theorem C2_manifest_permissions_are_the_declared_ones :
  forall (catalog : list jsstring)
         (templates : Backend.Archetype -> option Backend.FileSet)
         (packager : N -> Backend.FileSet -> Backend.Manifest -> option jsstring)
         (fresh : N) (r : Backend.GenerationRequest) (x : Backend.Artifact),
    Backend.generate catalog templates packager fresh r = Backend.Returned x ->
    PopupTimer.manifest_permissions (PopupTimer.manifest PopupTimer.popup_timer)
    = PopupTimer.permissions PopupTimer.popup_timer
    /\ (forall p,
           In p (PopupTimer.manifest_permissions (PopupTimer.manifest PopupTimer.popup_timer))
           <-> In p (PopupTimer.permissions PopupTimer.popup_timer))
    /\ Backend.declared x = Backend.req_permissions r
    /\ (forall m, Backend.art_manifest x = Some m ->
                  Backend.man_permissions m = Backend.declared x
                  /\ forall p, In p (Backend.man_permissions m) <-> In p (Backend.declared x))
    /\ (Backend.state x = Backend.Complete ->
        exists m, Backend.art_manifest x = Some m).
Proof.
  intros catalog templates packager fresh r x H.
  split; [reflexivity|]. split; [tauto|].
  destruct (generate_paths _ _ _ _ _ H) as (a & _ & _ & Hd & Hp).
  split; [exact Hd|]. split.
  - intros m Hm.
    assert (E : Backend.man_permissions m = Backend.declared x).
    { destruct Hp as [(e & _ & _ & _ & Hn & _)
                     |[(fs & _ & _ & _ & _ & Hs & _)
                      |(fs & h & _ & _ & _ & _ & Hs & _)]];
        [congruence| |]; rewrite Hs in Hm; injection Hm as <-; now rewrite Hd. }
    split; [exact E|]. intros p. now rewrite E.
  - intros Hc.
    destruct Hp as [(e & _ & Hs & _)
                   |[(fs & _ & _ & Hs & _)
                    |(fs & h & _ & _ & _ & _ & Hm & _)]];
      [congruence | congruence | eauto].
Qed.

(** C2, at the website-blocker request of the specification. *)
Lemma C2_manifest_permissions_witness :
  exists x,
    Backend.generate Scenario.catalog Scenario.templates Scenario.packager 1
                     Scenario.blocker_request = Backend.Returned x
    /\ Backend.state x = Backend.Complete
    /\ Backend.declared x = [lit "storage"; lit "activeTab"]
    /\ (forall m, Backend.art_manifest x = Some m ->
                  Backend.man_permissions m = Backend.declared x
                  /\ forall p, In p (Backend.man_permissions m) <-> In p (Backend.declared x)).
Proof.
  eexists. split; [reflexivity|]. split; [reflexivity|]. split; [reflexivity|].
  exact (proj1 (proj2 (proj2 (proj2
    (C2_manifest_permissions_are_the_declared_ones
       Scenario.catalog Scenario.templates Scenario.packager 1
       Scenario.blocker_request eq_refl))))).
Defined.

(** The record the simple creator stores is on screen in step 3: as the
    success card, or as the failure card when its [error] is truthy. *)
Lemma simple_generate_lands_on_screen env cb (s : State) :
  let o := SimpleExtensionCreator.handleGenerateExtension env cb s in
  exists x,
    generatedExtension (final o) = Some x
    /\ (SimpleExtensionCreator.screen (final o) = SuccessScreen x
        \/ exists reason,
             SimpleExtensionCreator.screen (final o) = FailureScreen reason
             /\ ext_error x = Some reason)
    /\ ((SimpleExtensionCreator.generateFailure env cb = None
         /\ SimpleExtensionCreator.delivered env = Some x)
        \/ exists e,
             SimpleExtensionCreator.generateFailure env cb = Some e
             /\ x = SimpleExtensionCreator.failedExtension
                      (SimpleExtensionCreator.errorMessageOr
                         (lit "Extension generation failed. Please try again.") e)).
Proof.
  intros o.
  destruct (simple_generate_lands env cb s) as (_ & Hstep & _ & Hx). fold o in Hstep, Hx.
  assert (Hs : forall x, generatedExtension (final o) = Some x ->
             SimpleExtensionCreator.screen (final o) = SuccessScreen x
             \/ exists reason,
                  SimpleExtensionCreator.screen (final o) = FailureScreen reason
                  /\ ext_error x = Some reason).
  { intros x E. unfold SimpleExtensionCreator.screen. rewrite Hstep, E. simpl.
    destruct (ext_error x) as [reason|]; [|now left].
    destruct (truthy reason); [right; eauto | now left]. }
  destruct (SimpleExtensionCreator.generateFailure env cb) as [e|] eqn:Ef.
  - eexists. split; [exact Hx|]. split; [now apply Hs|]. right. eauto.
  - assert (exists x, SimpleExtensionCreator.delivered env = Some x) as [x Ed].
    { revert Ef. unfold SimpleExtensionCreator.generateFailure,
        SimpleExtensionCreator.delivered.
      destruct (fetched env) as [e|r]; [discriminate|].
      destruct (ok r); [|destruct (text r); discriminate].
      destruct (json r); [eauto | discriminate]. }
    rewrite Ed in Hx. exists x. split; [exact Hx|]. split; [now apply Hs|]. now left.
Qed.




(** C4. For every well-shaped generate request the endpoint answers 200
    with the summary of the returned record, whose state is [Complete] or
    [Failed]; a failed one carries status "failed" and the error. In the
    simple creator no run of [handleGenerateExtension] throws, whatever
    [fetch], the response and the callback do: it returns with the spinner
    off, on step 3, with a record stored and on screen. That record is the
    parsed body of the 2xx answer when nothing was thrown, and otherwise the
    failure record with status "failed" and the error message. *)
Theorem C4_generation_failure_is_a_returned_record :
  forall (catalog : list jsstring)
         (templates : Backend.Archetype -> option Backend.FileSet)
         (packager : N -> Backend.FileSet -> Backend.Manifest -> option jsstring)
         (fresh : N) (r : Backend.GenerationRequest)
         (env : Env ExtensionData) (cb : Callback) (s : State),
    Backend.well_shaped catalog r = true ->
    (exists x,
        Backend.generate catalog templates packager fresh r = Backend.Returned x
        /\ Backend.post_generate catalog templates packager fresh r
           = Backend.mkAnswer 200 (Some (Backend.summary x))
        /\ (Backend.state x = Backend.Complete \/ Backend.state x = Backend.Failed)
        /\ (Backend.state x = Backend.Failed ->
            Backend.sum_status (Backend.summary x) = lit "failed"
            /\ exists e, Backend.error_detail x = Some e
                         /\ Backend.sum_error (Backend.summary x)
                            = Some (Backend.kind_name e)))
    /\ (let o := SimpleExtensionCreator.handleGenerateExtension env cb s in
        returns o = true
        /\ spinner (final o) = false
        /\ step (final o) = 3%Z
        /\ exists x,
             generatedExtension (final o) = Some x
             /\ (SimpleExtensionCreator.screen (final o) = SuccessScreen x
                 \/ exists reason,
                      SimpleExtensionCreator.screen (final o) = FailureScreen reason
                      /\ ext_error x = Some reason)
             /\ ((SimpleExtensionCreator.generateFailure env cb = None
                  /\ SimpleExtensionCreator.delivered env = Some x)
                 \/ exists e,
                      SimpleExtensionCreator.generateFailure env cb = Some e
                      /\ ext_status x = Some (lit "failed")
                      /\ ext_error x
                         = Some (SimpleExtensionCreator.errorMessageOr
                                   (lit "Extension generation failed. Please try again.")
                                   e))).
Proof.
  intros catalog templates packager fresh r env cb s Hw. split.
  - destruct (well_shaped_validates _ _ Hw) as (a & Hv & _).
    destruct (Backend.generate catalog templates packager fresh r) as [e|x] eqn:Eg.
    { unfold Backend.generate in Eg. rewrite Hv in Eg.
      destruct (Backend.build templates a r);
        [|destruct (packager fresh _ _)]; discriminate. }
    exists x. split; [reflexivity|]. split.
    { unfold Backend.post_generate. now rewrite Hw, Eg. }
    destruct (generate_paths _ _ _ _ _ Eg) as (a' & _ & _ & _ & Hp).
    destruct Hp as [(e & _ & Hs & He & _)
                   |[(fs & _ & _ & Hs & He & _)
                    |(fs & h & _ & _ & Hs & _)]].
    + split; [now right|]. intros _. unfold Backend.summary.
      rewrite Hs, He. simpl. eauto.
    + split; [now right|]. intros _. unfold Backend.summary.
      rewrite Hs, He. simpl. eauto.
    + split; [now left|]. rewrite Hs. discriminate.
  - intros o.
    destruct (simple_generate_lands env cb s) as (Hr & Hstep & Hg & _).
    split; [exact Hr|]. split; [exact Hg|]. split; [exact Hstep|].
    destruct (simple_generate_lands_on_screen env cb s) as (x & Hx & Hscreen & Hwhy).
    exists x. split; [exact Hx|]. split; [exact Hscreen|].
    destruct Hwhy as [Hok|(e & He & ->)]; [now left|].
    right. exists e. repeat split. exact He.
Qed.

(** C4, at the website-blocker request with an empty template store, and
    at a server that answers 500. *)
Lemma C4_generation_failure_witness :
  Backend.well_shaped Scenario.catalog Scenario.blocker_request = true
  /\ (exists x,
         Backend.post_generate Scenario.catalog (fun _ => None) Scenario.packager 1
                               Scenario.blocker_request
         = Backend.mkAnswer 200 (Some (Backend.summary x))
         /\ Backend.state x = Backend.Failed
         /\ Backend.sum_error (Backend.summary x) = Some (lit "TemplateMissing"))
  /\ SimpleExtensionCreator.screen
       (final (SimpleExtensionCreator.handleGenerateExtension
                 Scenario.server_error None Scenario.configured))
     = FailureScreen (lit "Extension generation failed: 500 Internal Server Error").
Proof.
  destruct (C4_generation_failure_is_a_returned_record
              Scenario.catalog (fun _ => None) Scenario.packager 1
              Scenario.blocker_request Scenario.server_error None
              Scenario.configured eq_refl)
    as ((x & Hg & Hp & _ & _) & _).
  split; [reflexivity|]. split; [|reflexivity].
  exists x. split; [exact Hp|].
  injection Hg as <-. split; reflexivity.
Defined.

(* ===================================================================== *)
(** * Further properties of the code *)
(* ===================================================================== *)

(** ** The creators' handlers *)

(** X1. A generation run, in either creator and whatever the browser and
    the server do, issues exactly one request, a POST to the generate URL,
    and leaves the prompt, the selected type and permissions, the
    target-websites input and the analysis as they were. *)
Theorem X1_generation_keeps_the_inputs :
  forall (env : Env ExtensionData) (cb : Callback) (s : State),
    (let o := SimpleExtensionCreator.handleGenerateExtension env cb s in
     (exists req, network (final o) = network s ++ [req]
                  /\ method req = POST /\ url req = generate_url)
     /\ prompt (final o) = prompt s
     /\ selectedType (final o) = selectedType s
     /\ selectedPermissions (final o) = selectedPermissions s
     /\ targetWebsites (final o) = targetWebsites s
     /\ analysis (final o) = analysis s)
    /\ (let o := ChromeExtensionCreator.handleGenerateExtension env cb s in
        (exists req, network (final o) = network s ++ [req]
                     /\ method req = POST /\ url req = generate_url)
        /\ prompt (final o) = prompt s
        /\ selectedType (final o) = selectedType s
        /\ selectedPermissions (final o) = selectedPermissions s
        /\ targetWebsites (final o) = targetWebsites s
        /\ analysis (final o) = analysis s).
Proof.
  intros env cb s. split; intros o; subst o.
  - split.
    { eexists. split; [apply simple_generate_sends|]. split; reflexivity. }
    destruct env as [tok clk f n]. run_handler.
    split_generate f cb; repeat split; reflexivity.
  - split.
    { eexists. split; [apply chrome_generate_sends|]. split; reflexivity. }
    destruct env as [tok clk f n]. run_handler.
    destruct f as [e|[st stt tx js]]; step_handler; [repeat split; reflexivity|].
    destruct js as [x|e]; step_handler; [|repeat split; reflexivity].
    destruct cb as [g|]; step_handler; [destruct (g x)|]; repeat split; reflexivity.
Qed.

(** X2. In the simple creator, [handleAnalyzePrompt] on a prompt that is
    not blank never throws, sends one POST, and ends with the spinner off
    and the progress back at 0. If the request, the status or the body
    failed, the step, the selected type and the selected permissions are
    unchanged and the analysis holds the error message; otherwise the step
    is 2, the analysis is the parsed body, the selected type is the first
    suggestion if there is one, and the selected permissions are the
    suggested ones if the body has any. *)
Theorem X2_simple_analysis_outcome :
  forall (env : Env AnalysisData) (s : State),
    truthy (trim (prompt s)) = true ->
    let o := SimpleExtensionCreator.handleAnalyzePrompt env s in
    returns o = true
    /\ network (final o) = network s ++ [SimpleExtensionCreator.analyzeRequest env s]
    /\ isGenerating (final o) = false
    /\ generationProgress (final o) = 0%Z
    /\ match SimpleExtensionCreator.analyzeFailure env with
       | Some e =>
           step (final o) = step s
           /\ selectedType (final o) = selectedType s
           /\ selectedPermissions (final o) = selectedPermissions s
           /\ analysis (final o)
              = Some (SimpleExtensionCreator.failedAnalysis
                        (SimpleExtensionCreator.errorMessageOr
                           (lit "Analysis failed. Please try again.") e))
       | None =>
           exists a,
             SimpleExtensionCreator.analysed env = Some a
             /\ step (final o) = 2%Z
             /\ analysis (final o) = Some a
             /\ selectedType (final o)
                = match firstSuggestion a with
                  | Some t => t
                  | None => selectedType s
                  end
             /\ selectedPermissions (final o)
                = match suggestedPermissions a with
                  | Some ps => ps
                  | None => selectedPermissions s
                  end
       end.
Proof.
  intros env s H o. subst o.
  split; [|split; [now apply simple_analyze_sends|]].
  - destruct env as [tok clk f n].
    unfold SimpleExtensionCreator.handleAnalyzePrompt. rewrite H.
    run_handler. split_analyze f; reflexivity.
  - destruct env as [tok clk f n].
    unfold SimpleExtensionCreator.handleAnalyzePrompt,
      SimpleExtensionCreator.analyzeFailure, SimpleExtensionCreator.analysed.
    rewrite H. run_handler.
    destruct f as [e|[st stt tx js]]; unfold ok; step_handler;
      [repeat split; reflexivity|].
    destruct (N.leb 200 st && N.leb st 299)%bool; step_handler.
    + destruct js as [x|e]; step_handler; [|repeat split; reflexivity].
      split; [|split]; [destruct (firstSuggestion x); step_handler;
                        destruct (suggestedPermissions x); reflexivity ..|].
      exists x. split; [reflexivity|].
      destruct (firstSuggestion x); step_handler;
        destruct (suggestedPermissions x); repeat split; reflexivity.
    + destruct tx; step_handler; repeat split; reflexivity.
Qed.

(** X2, at the prompt "timer" and a server that answers 200 with an
    analysis suggesting the popup type and the storage permission. *)
Lemma X2_simple_analysis_witness :
  truthy (trim (prompt Scenario.described)) = true
  /\ step (final (SimpleExtensionCreator.handleAnalyzePrompt
                    Scenario.analysed Scenario.described)) = 2%Z
  /\ selectedType (final (SimpleExtensionCreator.handleAnalyzePrompt
                            Scenario.analysed Scenario.described)) = lit "popup"
  /\ isGenerating (final (SimpleExtensionCreator.handleAnalyzePrompt
                            Scenario.analysed Scenario.described)) = false.
Proof.
  destruct (X2_simple_analysis_outcome Scenario.analysed Scenario.described eq_refl)
    as (_ & _ & Hg & _ & Ha).
  split; [reflexivity|].
  cbn in Ha. destruct Ha as (a & Ea & Hstep & _ & Ht & _).
  injection Ea as <-.
  split; [exact Hstep|]. split; [exact Ht | exact Hg].
Defined.

(** X3. In [ChromeExtensionCreator], [handleAnalyzePrompt] on a prompt that
    is not blank never throws and ends with the spinner off and the progress
    at 0. It does not look at the status of the answer: whenever the body
    parses, the step becomes 2 and the body becomes the analysis; when the
    request or the parsing fails, the step, the analysis and the selection
    stay as they were and only the console gets a line. *)
Theorem X3_chrome_analysis_ignores_the_status :
  forall (env : Env AnalysisData) (s : State),
    truthy (trim (prompt s)) = true ->
    let o := ChromeExtensionCreator.handleAnalyzePrompt env s in
    returns o = true
    /\ isGenerating (final o) = false
    /\ generationProgress (final o) = 0%Z
    /\ match fetched env with
       | FetchResolves {| json := Resolves a |} =>
           step (final o) = 2%Z
           /\ analysis (final o) = Some a
           /\ selectedType (final o)
              = match firstSuggestion a with
                | Some t => t
                | None => selectedType s
                end
           /\ selectedPermissions (final o)
              = match suggestedPermissions a with
                | Some ps => ps
                | None => selectedPermissions s
                end
       | _ =>
           step (final o) = step s
           /\ analysis (final o) = analysis s
           /\ selectedType (final o) = selectedType s
           /\ selectedPermissions (final o) = selectedPermissions s
           /\ length (consoleLines (final o)) = S (length (consoleLines s))
       end.
Proof.
  intros env s H o. subst o. destruct env as [tok clk f n].
  unfold ChromeExtensionCreator.handleAnalyzePrompt. rewrite H. run_handler.
  destruct f as [e|[st stt tx js]]; step_handler.
  - repeat split; try reflexivity. rewrite length_app. simpl. lia.
  - destruct js as [x|e]; step_handler.
    + destruct (firstSuggestion x); step_handler;
        destruct (suggestedPermissions x); repeat split; reflexivity.
    + repeat split; try reflexivity. rewrite length_app. simpl. lia.
Qed.

(** X3, at the prompt "timer" and a server that answers 500 with a JSON
    document: the creator moves on to step 2. *)
Lemma X3_chrome_analysis_witness :
  truthy (trim (prompt Scenario.described)) = true
  /\ step (final (ChromeExtensionCreator.handleAnalyzePrompt
                    Runs.analysis_error Scenario.described)) = 2%Z.
Proof.
  destruct (X3_chrome_analysis_ignores_the_status Runs.analysis_error
              Scenario.described eq_refl) as (_ & _ & _ & Hs & _).
  split; [reflexivity | exact Hs].
Defined.

(** X4. The generate request of the simple creator always carries the
    JSON content type, and carries an [Authorization] header exactly when
    [localStorage] holds a non-empty [auth_token], then with the value
    "Bearer " followed by the token; the generate request of
    [ChromeExtensionCreator] never carries one. *)
Theorem X4_authorization_header :
  forall (env : Env ExtensionData) (cb : Callback) (s : State),
    (exists req,
        network (final (SimpleExtensionCreator.handleGenerateExtension env cb s))
        = network s ++ [req]
        /\ header (lit "Content-Type") req = Some (lit "application/json")
        /\ header (lit "Authorization") req
           = match auth_token env with
             | Some t => if truthy t then Some (lit "Bearer " ++ t) else None
             | None => None
             end)
    /\ (exists req,
           network (final (ChromeExtensionCreator.handleGenerateExtension env cb s))
           = network s ++ [req]
           /\ header (lit "Content-Type") req = Some (lit "application/json")
           /\ header (lit "Authorization") req = None).
Proof.
  intros env cb s. split.
  - eexists. split; [apply simple_generate_sends|].
    unfold SimpleExtensionCreator.generateRequest, header,
      SimpleExtensionCreator.requestHeaders.
    cbn [headers]. split; [reflexivity|].
    destruct (auth_token env) as [t|]; [destruct (truthy t)|]; reflexivity.
  - eexists. split; [apply chrome_generate_sends|]. split; reflexivity.
Qed.

(** The progress interval from a given progress: ten more per callback
    while below 95, then 95 and the interval is cleared. *)
Lemma elapse_disarmed (n : nat) (s : State) :
  progressInterval s = false -> elapse n s = s.
Proof.
  revert s; induction n as [|n IH]; intros s H; simpl; [reflexivity|].
  unfold progressTick at 1. rewrite H. now apply IH.
Qed.

Lemma elapse_from_tens (n k : nat) (s : State) :
  progressInterval s = true ->
  generationProgress s = (10 * Z.of_nat k)%Z ->
  (k <= 10)%nat ->
  generationProgress (elapse n s)
  = (if (n + k <=? 10)%nat then 10 * Z.of_nat (n + k) else 95)%Z
  /\ progressInterval (elapse n s) = (n + k <=? 10)%nat.
Proof.
  revert k s; induction n as [|n IH]; intros k s Ha Hp Hk.
  - simpl. replace (k <=? 10)%nat with true by (symmetry; now apply Nat.leb_le).
    split; [exact Hp | exact Ha].
  - cbn [elapse]. destruct (Nat.eq_dec k 10) as [->|Hne].
    + assert (E : progressTick s
                  = armInterval false (setGenerationProgress (fun _ => 95%Z) s)).
      { unfold progressTick. rewrite Ha, Hp. reflexivity. }
      rewrite E, elapse_disarmed by reflexivity.
      replace (S n + 10 <=? 10)%nat with false
        by (symmetry; apply Nat.leb_gt; lia).
      split; reflexivity.
    + assert (E : progressTick s
                  = setGenerationProgress (fun prev => (prev + 10)%Z) s).
      { unfold progressTick. rewrite Ha, Hp.
        replace (10 * Z.of_nat k >=? 95)%Z with false; [reflexivity|].
        symmetry. rewrite Z.geb_leb. apply Z.leb_gt. lia. }
      rewrite E.
      replace (S n + k)%nat with (n + S k)%nat by lia.
      apply IH; [exact Ha | | lia].
      cbn [generationProgress setGenerationProgress]. rewrite Hp. lia.
Qed.


Ltac settle_elapse_from_zero :=
  match goal with
  | |- context [elapse ?n ?s] =>
      let Hp := fresh "Hp" in
      let Ha := fresh "Ha" in
      let z := fresh "z" in
      let b := fresh "b" in
      let E := fresh "E" in
      destruct (elapse_from_tens n (k := 0) s eq_refl eq_refl) as [Hp Ha]; [lia|];
      rewrite Nat.add_0_r in Hp, Ha;
      destruct (elapse_shape n s) as (z & b & E);
      rewrite E in Hp, Ha |- *;
      cbn [generationProgress progressInterval] in Hp, Ha;
      subst z b
  end.

Ltac run_generate :=
  unfold SimpleExtensionCreator.handleGenerateExtension,
         ChromeExtensionCreator.handleGenerateExtension,
         try_catch_finally, fetch, bind, modify,
         SimpleExtensionCreator.addDebugLog, ChromeExtensionCreator.consoleError,
         invoke, when, ret, throw, await;
  step_handler;
  settle_elapse_from_zero.

(** X6. A run of [handleGenerateExtension] that starts while no progress
    interval of an earlier run is armed never clears the interval it
    starts: in both creators the interval is still armed when the handler
    returns, unless it had already fired more than ten times while the
    request was pending. The progress left behind is 100 when the body was
    parsed (in [ChromeExtensionCreator] whatever the status), and otherwise
    the value the interval had reached. *)
Theorem X6_progress_interval_outlives_the_run :
  forall (env : Env ExtensionData) (cb : Callback) (s : State),
    progressInterval s = false ->
    let reached := (if (ticks env <=? 10)%nat
                    then 10 * Z.of_nat (ticks env) else 95)%Z in
    (let o := SimpleExtensionCreator.handleGenerateExtension env cb s in
     progressInterval (final o) = (ticks env <=? 10)%nat
     /\ generationProgress (final o)
        = match SimpleExtensionCreator.delivered env with
          | Some _ => 100%Z
          | None => reached
          end)
    /\ (let o := ChromeExtensionCreator.handleGenerateExtension env cb s in
        progressInterval (final o) = (ticks env <=? 10)%nat
        /\ generationProgress (final o)
           = match fetched env with
             | FetchResolves {| json := Resolves _ |} => 100%Z
             | _ => reached
             end).
Proof.
  intros env cb s _ reached. subst reached. destruct env as [tok clk f n].
  cbn [ticks fetched]. split.
  - unfold SimpleExtensionCreator.delivered. run_generate.
    split_generate f cb; split; reflexivity.
  - run_generate.
    destruct f as [e|[st stt tx js]]; step_handler; [split; reflexivity|].
    destruct js as [x|e]; step_handler; [|split; reflexivity].
    destruct cb as [g|]; step_handler; [destruct (g x)|]; split; reflexivity.
Qed.

(** X6, at the first run from step 2 with the network down: the interval
    has fired three times and is left armed at 30. *)
Lemma X6_progress_interval_witness :
  progressInterval Scenario.configured = false
  /\ progressInterval
       (final (SimpleExtensionCreator.handleGenerateExtension
                 (Scenario.offline ExtensionData) None Scenario.configured))
     = true
  /\ generationProgress
       (final (SimpleExtensionCreator.handleGenerateExtension
                 (Scenario.offline ExtensionData) None Scenario.configured))
     = 30%Z.
Proof.
  split; [reflexivity|].
  exact (proj1 (X6_progress_interval_outlives_the_run
                  (Scenario.offline ExtensionData) None Scenario.configured
                  eq_refl)).
Defined.

(** The simple creator's generation run leaves the inputs alone. *)
Lemma simple_generate_frame env cb (s : State) :
  let o := SimpleExtensionCreator.handleGenerateExtension env cb s in
  prompt (final o) = prompt s
  /\ selectedType (final o) = selectedType s
  /\ selectedPermissions (final o) = selectedPermissions s
  /\ targetWebsites (final o) = targetWebsites s
  /\ analysis (final o) = analysis s.
Proof.
  destruct env as [tok clk f n]. run_handler.
  split_generate f cb; repeat split; reflexivity.
Qed.

(** X7. After a generation run of the simple creator,
    [handleDownloadExtension] opens a window exactly when the run stored the
    parsed body of a 2xx answer and that body has a non-empty
    [download_url], and then for that URL; after a failed run it opens
    nothing. Either way it sends no request and keeps the stored record. *)
Theorem X7_download_after_generation :
  forall (env : Env ExtensionData) (cb : Callback) (s : State),
    let after := final (SimpleExtensionCreator.handleGenerateExtension env cb s) in
    let o := SimpleExtensionCreator.handleDownloadExtension env after in
    value o
    = Some match SimpleExtensionCreator.generateFailure env cb,
                 SimpleExtensionCreator.delivered env with
           | None, Some x =>
               match download_url x with
               | Some u => if truthy u then Some u else None
               | None => None
               end
           | _, _ => None
           end
    /\ network (final o) = network after
    /\ generatedExtension (final o) = generatedExtension after
    /\ step (final o) = step after.
Proof.
  intros env cb s after o. subst o. split.
  - destruct (simple_generate_lands env cb s) as (_ & _ & _ & Hx). fold after in Hx.
    unfold SimpleExtensionCreator.handleDownloadExtension, downloadUrl.
    rewrite Hx.
    destruct (SimpleExtensionCreator.generateFailure env cb) as [e|];
      [reflexivity|].
    destruct (SimpleExtensionCreator.delivered env) as [x|]; [|reflexivity].
    destruct (download_url x) as [u|]; [destruct (truthy u)|]; reflexivity.
  - unfold SimpleExtensionCreator.handleDownloadExtension.
    destruct (downloadUrl after); repeat split; reflexivity.
Qed.

(** X8. A click on a permission checkbox of [ChromeExtensionCreator]
    changes the selection exactly as [togglePermission] of the simple
    creator does, and changes nothing else. *)
Theorem X8_checkbox_click_is_toggle :
  forall (permissionId : jsstring) (s : State),
    ChromeExtensionCreator.clickPermission permissionId s
    = Done tt (setSelectedPermissions
                 (SimpleExtensionCreator.togglePermissionUpdate permissionId) s).
Proof.
  intros id s.
  unfold ChromeExtensionCreator.clickPermission, ChromeExtensionCreator.onCheckedChange,
    SimpleExtensionCreator.togglePermissionUpdate, modify, setSelectedPermissions.
  destruct (includes (selectedPermissions s) id); reflexivity.
Qed.

(** ** Sequences of permission toggles *)

Lemma toggle_NoDup (id : jsstring) (l : list jsstring) :
  NoDup l -> NoDup (SimpleExtensionCreator.togglePermissionUpdate id l).
Proof.
  intros H. destruct (in_dec jsstring_eq_dec id l) as [Hin|Hout].
  - rewrite (toggle_present _ _ Hin). now apply NoDup_filter.
  - rewrite (toggle_absent _ _ Hout).
    apply (Permutation_NoDup (l := id :: l)).
    + apply Permutation_cons_append.
    + now constructor.
Qed.

Lemma includes_iff (l : list jsstring) (x : jsstring) (b : bool) :
  (In x l <-> b = true) -> includes l x = b.
Proof.
  intros H. destruct b.
  - apply includes_In. now apply H.
  - apply includes_not_In. intros Hin. apply H in Hin. discriminate.
Qed.

Lemma toggle_includes (id x : jsstring) (l : list jsstring) :
  includes (SimpleExtensionCreator.togglePermissionUpdate id l) x
  = if jsstring_eq_dec id x then negb (includes l x) else includes l x.
Proof.
  destruct (in_dec jsstring_eq_dec id l) as [Hin|Hout].
  - rewrite (toggle_present _ _ Hin). apply includes_iff.
    rewrite filter_other_In. destruct (jsstring_eq_dec id x) as [<-|Hne].
    + apply includes_In in Hin. rewrite Hin. simpl. split; [tauto | discriminate].
    + rewrite includes_In. split; [tauto|]. intros H. split; [exact H | congruence].
  - rewrite (toggle_absent _ _ Hout). apply includes_iff.
    rewrite in_app_iff. simpl. destruct (jsstring_eq_dec id x) as [<-|Hne].
    + apply includes_not_In in Hout. rewrite Hout. simpl. tauto.
    + rewrite includes_In. tauto.
Qed.

(** X9. Starting from a duplicate-free selection, after any sequence of
    checkbox clicks the selection is still duplicate-free, and an id is
    selected exactly when it was selected before and clicked an even number
    of times, or was not and was clicked an odd number of times. *)
Theorem X9_selection_after_toggles :
  forall (ids l : list jsstring),
    NoDup l ->
    NoDup (SimpleExtensionCreator.toggles ids l)
    /\ forall x,
         includes (SimpleExtensionCreator.toggles ids l) x
         = xorb (includes l x) (Nat.odd (count_occ jsstring_eq_dec ids x)).
Proof.
  induction ids as [|id ids IH]; intros l H.
  - split; [exact H|]. intros x. simpl. now rewrite xorb_false_r.
  - destruct (IH _ (toggle_NoDup id H)) as [Hn Hx].
    split; [exact Hn|]. intros x.
    change (SimpleExtensionCreator.toggles (id :: ids) l)
      with (SimpleExtensionCreator.toggles ids
              (SimpleExtensionCreator.togglePermissionUpdate id l)).
    rewrite Hx, toggle_includes. simpl count_occ.
    destruct (jsstring_eq_dec id x) as [_|_]; [|reflexivity].
    rewrite Nat.odd_succ, <- Nat.negb_odd.
    destruct (includes l x), (Nat.odd (count_occ jsstring_eq_dec ids x)); reflexivity.
Qed.

(** X9, from the empty selection: storage, tabs, storage leaves tabs. *)
Lemma X9_selection_witness :
  NoDup (@nil jsstring)
  /\ NoDup (SimpleExtensionCreator.toggles
              [lit "storage"; lit "tabs"; lit "storage"] [])
  /\ includes (SimpleExtensionCreator.toggles
                 [lit "storage"; lit "tabs"; lit "storage"] []) (lit "tabs") = true
  /\ includes (SimpleExtensionCreator.toggles
                 [lit "storage"; lit "tabs"; lit "storage"] []) (lit "storage") = false.
Proof.
  destruct (X9_selection_after_toggles
              [lit "storage"; lit "tabs"; lit "storage"] (NoDup_nil jsstring))
    as [Hn Hx].
  split; [constructor|]. split; [exact Hn|]. split.
  - rewrite Hx. reflexivity.
  - rewrite Hx. reflexivity.
Defined.

(** ** Leaving the result screen *)

(** X10. "Try Again" after a generation run of the simple creator, however
    the run went, shows the describe form again with no stored record and
    no analysis, and with the prompt, the selected type and permissions and
    the target-websites input the user had before the run. *)
Theorem X10_try_again_keeps_the_inputs :
  forall (env : Env ExtensionData) (cb : Callback) (s : State),
    let o := SimpleExtensionCreator.tryAgain
               (final (SimpleExtensionCreator.handleGenerateExtension env cb s)) in
    returns o = true
    /\ SimpleExtensionCreator.screen (final o) = DescribeForm
    /\ spinner (final o) = false
    /\ generatedExtension (final o) = None
    /\ analysis (final o) = None
    /\ prompt (final o) = prompt s
    /\ selectedType (final o) = selectedType s
    /\ selectedPermissions (final o) = selectedPermissions s
    /\ targetWebsites (final o) = targetWebsites s.
Proof.
  intros env cb s o. subst o.
  destruct (simple_generate_frame env cb s) as (Hp & Ht & Hs & Hw & _).
  destruct (simple_generate_lands env cb s) as (_ & _ & Hg & _).
  split; [reflexivity|]. split; [reflexivity|].
  split; [exact Hg|]. split; [reflexivity|]. split; [reflexivity|].
  split; [exact Hp|]. split; [exact Ht|]. split; [exact Hs | exact Hw].
Qed.

(** ** The debug panel of the simple creator *)

Ltac show_appended :=
  unfold Creator.appendedLines; step_handler;
  repeat rewrite <- app_assoc;
  eexists; split; [reflexivity|]; split; [reflexivity|];
  cbn [length app]; lia.

(** X11. In the simple creator the debug log is append-only under every
    handler: analysing (blank prompt or not), generating, toggling a
    permission and downloading each keep the earlier lines in place and add
    theirs at the end; the same lines go to the console in the same order,
    and each line took one reading of the clock. Nothing is dropped, however
    long the log is. *)
Theorem X11_debug_log_is_append_only :
  forall (envA : Env AnalysisData) (envG : Env ExtensionData) (cb : Callback)
         (permissionId : jsstring) (s : State),
    (exists lines,
        Creator.appendedLines lines s (SimpleExtensionCreator.handleAnalyzePrompt envA s))
    /\ (exists lines,
           Creator.appendedLines lines s
             (SimpleExtensionCreator.handleGenerateExtension envG cb s))
    /\ (exists lines,
           Creator.appendedLines lines s
             (SimpleExtensionCreator.togglePermission envG permissionId s))
    /\ (exists lines,
           Creator.appendedLines lines s
             (SimpleExtensionCreator.handleDownloadExtension envG s)).
Proof.
  intros envA envG cb id s. split; [|split; [|split]].
  - destruct envA as [tok clk f n].
    unfold SimpleExtensionCreator.handleAnalyzePrompt.
    destruct (negb (truthy (trim (prompt s)))).
    + unfold SimpleExtensionCreator.addDebugLog. show_appended.
    + run_handler. split_analyze f; show_appended.
  - destruct envG as [tok clk f n]. run_handler.
    split_generate f cb; show_appended.
  - unfold SimpleExtensionCreator.togglePermission, bind, modify,
      SimpleExtensionCreator.addDebugLog. show_appended.
  - unfold SimpleExtensionCreator.handleDownloadExtension, bind, ret,
      SimpleExtensionCreator.addDebugLog.
    destruct (downloadUrl s); show_appended.
Qed.

(** ** The debug service: reading, clearing, API and health helpers *)

Import DebugApi.

Lemma level_eqb_eq (a b : Level) : level_eqb a b = true <-> a = b.
Proof. destruct a, b; simpl; split; congruence. Qed.

Lemma getEntries_filter (D : Type) (l : Level) (s : Service D) :
  getEntries (Some l) s = filter (fun e => level_eqb (level e) l) (entries s).
Proof. reflexivity. Qed.

Lemma filter_levels_length (D : Type) (es : list (DebugEntry D)) :
  (length (filter (fun e => level_eqb (level e) info_l) es)
   + length (filter (fun e => level_eqb (level e) warn_l) es)
   + length (filter (fun e => level_eqb (level e) error_l) es)
   + length (filter (fun e => level_eqb (level e) success_l) es))%nat
  = length es.
Proof.
  induction es as [|e es IH]; [reflexivity|].
  cbn [filter]. destruct (level e); cbn [level_eqb length]; lia.
Qed.

(** X12. [getEntries] without a level returns all kept entries; with a level
    it returns exactly the kept entries of that level, in their order. The
    four levels partition the log: the four filtered lengths add up to the
    number of entries, so after any sequence of logging calls each filtered
    list has at most 100 entries. *)
Theorem X12_getEntries_partitions_the_log :
  forall (D : Type) (ks : list (Call D)) (l : Level) (s : Service D),
    getEntries None s = entries s
    /\ (forall e, In e (getEntries (Some l) s) <-> In e (entries s) /\ level e = l)
    /\ (exists dropped, Permutation (entries s) (getEntries (Some l) s ++ dropped))
    /\ (length (getEntries (Some info_l) s) + length (getEntries (Some warn_l) s)
        + length (getEntries (Some error_l) s)
        + length (getEntries (Some success_l) s))%nat
       = length (entries s)
    /\ (length (getEntries (Some l) (run ks (fresh D))) <= Z.to_nat maxEntries)%nat.
Proof.
  intros D ks l s. split; [reflexivity|]. split; [|split; [|split]].
  - intros e. rewrite getEntries_filter, filter_In, level_eqb_eq. tauto.
  - exists (filter (fun e => negb (level_eqb (level e) l)) (entries s)).
    rewrite getEntries_filter.
    induction (entries s) as [|e es IH]; [constructor|].
    cbn [filter]. destruct (level_eqb (level e) l); cbn [negb app].
    + now constructor.
    + now apply Permutation_cons_app.
  - rewrite !getEntries_filter. apply filter_levels_length.
  - rewrite getEntries_filter.
    etransitivity; [apply filter_length_le|].
    rewrite run_entries, last_n_length. lia.
Qed.

Lemma run_entries_from (D : Type) (ks : list (Call D)) (s : Service D) :
  (length (entries s) <= Z.to_nat maxEntries)%nat ->
  entries (run ks s)
  = last_n (Z.to_nat maxEntries) (entries s ++ map (@DebugService.appended D) ks).
Proof.
  intros H. induction ks as [|k ks IH] using rev_ind.
  - simpl. rewrite app_nil_r. symmetry. now apply last_n_short.
  - rewrite run_snoc, perform_entries, IH, map_app, app_assoc. simpl map.
    apply last_n_push. unfold maxEntries. lia.
Qed.

Lemma perform_console (D : Type) (k : Call D) (s : Service D) :
  length (console (perform k s)) = S (length (console s)).
Proof.
  destruct k as [rt l c m d|rt c m d|rt c m d|rt c m d|rt c m d];
    [destruct l| | | |]; cbn; rewrite length_app; simpl; lia.
Qed.

Lemma run_console (D : Type) (ks : list (Call D)) (s : Service D) :
  length (console (run ks s)) = (length (console s) + length ks)%nat.
Proof.
  induction ks as [|k ks IH] using rev_ind; [simpl; lia|].
  rewrite run_snoc, perform_console, IH, length_app. simpl. lia.
Qed.

(** X13. [clear] forgets every entry: after it, the kept entries are the
    last 100 of the calls made since, whatever was logged before. The
    console is not cleared and never truncated: it has one line per logging
    call ever made. *)
Theorem X13_clear_forgets_entries_only :
  forall (D : Type) (before since : list (Call D)),
    entries (clear (run before (fresh D))) = []
    /\ entries (run since (clear (run before (fresh D))))
       = last_n (Z.to_nat maxEntries) (map (@DebugService.appended D) since)
    /\ length (console (run since (clear (run before (fresh D)))))
       = (length before + length since)%nat.
Proof.
  intros D before since. split; [reflexivity|]. split.
  - rewrite run_entries_from by (simpl; lia). reflexivity.
  - rewrite run_console. cbn [clear console]. rewrite run_console. reflexivity.
Qed.

Lemma healthCheck_outcome (R J : Type) (url healthy failed : jsstring) (rt : Runtime)
      (answer : Fetch J) (s : Service (Payload R)) :
  let '(req, result, s') := healthCheck url healthy failed rt answer s in
  req = mkRequest url GET [content_type_json] None
  /\ result = match answer with
              | FetchResolves r => ok r
              | FetchRejects _ => false
              end
  /\ exists e,
       entries s' = last_n (Z.to_nat maxEntries) (entries s ++ [e])
       /\ component e = lit "HealthCheck"
       /\ level e = (if result then success_l else error_l)
       /\ message e = (if result then healthy else failed).
Proof.
  unfold healthCheck. destruct answer as [e|r]; [|destruct (ok r)];
    (split; [reflexivity|]; split; [reflexivity|]);
    eexists; (split; [apply log_entries|]); repeat split.
Qed.

(** X14. [checkBackendHealth] and [checkChromeExtensionAPI] each send one
    GET without a body to their URL. They return [true]
    exactly when the request resolves with a status from 200 to 299, and
    log exactly one entry under the component "HealthCheck": a success
    entry when they return [true], an error entry when they return [false]
    (also when [fetch] itself rejects). *)
Theorem X14_health_checks :
  forall (R J : Type) (rt : Runtime) (answer : Fetch J) (s : Service (Payload R)),
    (let '(req, result, s') := checkBackendHealth rt answer s in
     req = mkRequest (lit "/api/health") GET [content_type_json] None
     /\ result = match answer with
                 | FetchResolves r => ok r
                 | FetchRejects _ => false
                 end
     /\ exists e,
          entries s' = last_n (Z.to_nat maxEntries) (entries s ++ [e])
          /\ component e = lit "HealthCheck"
          /\ level e = (if result then success_l else error_l))
    /\ (let '(req, result, s') := checkChromeExtensionAPI rt answer s in
        req = mkRequest (lit "/api/chrome-extension/health") GET [content_type_json] None
        /\ result = match answer with
                    | FetchResolves r => ok r
                    | FetchRejects _ => false
                    end
        /\ exists e,
             entries s' = last_n (Z.to_nat maxEntries) (entries s ++ [e])
             /\ component e = lit "HealthCheck"
             /\ level e = (if result then success_l else error_l)).
Proof.
  intros R J rt answer s. split.
  - pose proof (healthCheck_outcome (R := R) (lit "/api/health")
                  (lit "Backend is healthy") (lit "Backend health check failed")
                  rt answer s) as H.
    unfold checkBackendHealth.
    destruct (healthCheck _ _ _ rt answer s) as [[req result] s'].
    destruct H as (Hr & Hb & e & He & Hc & Hl & _). eauto 8.
  - pose proof (healthCheck_outcome (R := R) (lit "/api/chrome-extension/health")
                  (lit "Chrome Extension API is healthy")
                  (lit "Chrome Extension API health check failed")
                  rt answer s) as H.
    unfold checkChromeExtensionAPI.
    destruct (healthCheck _ _ _ rt answer s) as [[req result] s'].
    destruct H as (Hr & Hb & e & He & Hc & Hl & _). eauto 8.
Qed.

(** X15. [logAPICall] hands back the response it was given, also when the
    body of a failed response cannot be read. It
    always logs an info entry "<method> <endpoint>" under the component
    "API", and after it an error entry exactly when a response was given
    and its status is outside 200 to 299; the entries kept afterwards are
    the last 100 of the old ones followed by these. *)
Theorem X15_logAPICall_entries :
  forall (R J : Type) (rt1 rt2 : Runtime) (endpoint method : jsstring)
         (requestData : option R) (response : option (Response J))
         (s : Service (Payload R)),
    let '(returned, s') :=
      logAPICall rt1 rt2 endpoint method requestData response s in
    returned = response
    /\ exists e1,
         level e1 = info_l
         /\ component e1 = lit "API"
         /\ message e1 = method ++ lit " " ++ endpoint
         /\ match response with
            | Some r =>
                if ok r
                then entries s' = last_n (Z.to_nat maxEntries) (entries s ++ [e1])
                else exists e2,
                    level e2 = error_l
                    /\ component e2 = lit "API"
                    /\ message e2
                       = lit "API Error: " ++ of_N (status r) ++ lit " " ++ statusText r
                    /\ entries s'
                       = last_n (Z.to_nat maxEntries) (entries s ++ [e1; e2])
            | None => entries s' = last_n (Z.to_nat maxEntries) (entries s ++ [e1])
            end.
Proof.
  intros R J rt1 rt2 endpoint method requestData response s.
  unfold logAPICall.
  set (d1 := Some (ApiCall requestData (option_map (@status J) response)
                           (option_map (@statusText J) response))).
  set (e1 := make_entry rt1 info_l (lit "API") (method ++ lit " " ++ endpoint) d1).
  assert (H1 : entries (info rt1 (lit "API") (method ++ lit " " ++ endpoint) d1 s)
               = last_n (Z.to_nat maxEntries) (entries s ++ [e1]))
    by apply log_entries.
  destruct response as [r|]; [destruct (ok r)|]; cbn [negb];
    (split; [reflexivity|]); exists e1;
    (split; [reflexivity|]); (split; [reflexivity|]); (split; [reflexivity|]);
    try exact H1.
  eexists. split; [|split; [|split]];
    [| | |unfold DebugService.error; rewrite log_entries, H1;
          rewrite last_n_push by (unfold maxEntries; lia);
          rewrite <- app_assoc; reflexivity];
    reflexivity.
Qed.

(** ** The Pomodoro timer of the popup template *)

Import PomodoroTimer.

Ltac timer_simpl :=
  cbn -[clockText totalText sessionText of_Z lit Z.mul Z.add Z.sub Z.leb] in *.

Ltac timer_fields :=
  cbn [isRunning interval currentTime isWorkSession workTime breakTime
       completedSessions totalTime dom setButton timeDisplay sessionType
       startBtnDisabled completedSessionsEl totalTimeEl startBtnText
       notificationsAvailable notified stored negb].

(** [sessionComplete] and the interval callback, written out. *)
Lemma sessionComplete_eq (t : Timer) :
  sessionComplete t
  = let work := isWorkSession t in
    let counted := if work then (completedSessions t + 1)%Z else completedSessions t in
    let total := if work then (totalTime t + workTime t)%Z else totalTime t in
    let next := if work then breakTime t else workTime t in
    mkTimer (workTime t) (breakTime t) next false (negb work) false counted total
            (mkDom (clockText next) (sessionText (negb work)) (lit "Start") false
                   (of_Z counted) (totalText total))
            (if notificationsAvailable t
             then notified t ++ [if work then workDone else breakDone]
             else notified t)
            (stored t ++ [SaveStats counted total])
            (notificationsAvailable t).
Proof.
  destruct t as [w b c run work arm done total d ns ss na].
  destruct work, na; reflexivity.
Qed.

Lemma tick_eq (t : Timer) :
  tick t
  = if interval t then
      if (currentTime t - 1 <=? 0)%Z
      then sessionComplete (updateDisplay (setCurrentTime (currentTime t - 1) t))
      else updateDisplay (setCurrentTime (currentTime t - 1) t)
    else t.
Proof. reflexivity. Qed.

Lemma handle_consistent (e : Event) (t : Timer) :
  consistent t -> (1 <= workTime t)%Z -> (1 <= breakTime t)%Z ->
  consistent (handle e t)
  /\ workTime (handle e t) = workTime t
  /\ breakTime (handle e t) = breakTime t.
Proof.
  unfold consistent, duration.
  intros (Hr & Hc & Hd & Ht & Htd & Hst & Hbd & Hce & Hte) Hw Hb.
  destruct e; cbn [handle].
  - unfold start. destruct (isRunning t) eqn:E.
    + rewrite E. repeat split; try assumption; try lia; try congruence.
    + cbn [isRunning interval currentTime isWorkSession workTime breakTime
           completedSessions totalTime dom setButton timeDisplay sessionType
           startBtnDisabled completedSessionsEl totalTimeEl].
      repeat split; try assumption; try lia; try congruence.
  - unfold pause.
    cbn [isRunning interval currentTime isWorkSession workTime breakTime
         completedSessions totalTime dom setButton timeDisplay sessionType
         startBtnDisabled completedSessionsEl totalTimeEl].
    repeat split; try assumption; try lia; try congruence.
  - unfold reset, updateDisplay, setCurrentTime, duration, pause.
    cbn [isRunning interval currentTime isWorkSession workTime breakTime
         completedSessions totalTime dom setButton timeDisplay sessionType
         startBtnDisabled completedSessionsEl totalTimeEl startBtnText].
    destruct (isWorkSession t); repeat split; try assumption; try lia; try congruence.
  - rewrite tick_eq. destruct (interval t) eqn:Ea.
    + destruct (currentTime t - 1 <=? 0)%Z eqn:E.
      * rewrite sessionComplete_eq.
        unfold updateDisplay, setCurrentTime.
        cbn [isRunning interval currentTime isWorkSession workTime breakTime
             completedSessions totalTime dom setButton timeDisplay sessionType
             startBtnDisabled completedSessionsEl totalTimeEl startBtnText
             notificationsAvailable notified stored].
        destruct (isWorkSession t); cbn [negb];
          repeat split; try reflexivity; try assumption; try lia; try congruence.
      * apply Z.leb_gt in E. unfold updateDisplay, setCurrentTime.
        cbn [isRunning interval currentTime isWorkSession workTime breakTime
             completedSessions totalTime dom setButton timeDisplay sessionType
             startBtnDisabled completedSessionsEl totalTimeEl startBtnText].
        destruct (isWorkSession t); repeat split; try reflexivity; try assumption; try lia; try congruence.
    + repeat split; try assumption; try lia; try congruence.
Qed.

Lemma tick_running (t : Timer) :
  interval t = true -> (2 <= currentTime t)%Z ->
  tick t = updateDisplay (setCurrentTime (currentTime t - 1) t).
Proof.
  intros Ha Hc. unfold tick. rewrite Ha. timer_simpl.
  replace (currentTime t - 1 <=? 0)%Z with false; [reflexivity|].
  symmetry. apply Z.leb_gt. lia.
Qed.

Lemma tick_last (t : Timer) :
  interval t = true -> currentTime t = 1%Z ->
  tick t = sessionComplete (updateDisplay (setCurrentTime 0 t)).
Proof.
  intros Ha Hc. unfold tick. rewrite Ha, Hc. reflexivity.
Qed.

Lemma ticks_disarmed (k : nat) (t : Timer) : interval t = false -> ticks k t = t.
Proof.
  revert t; induction k as [|k IH]; intros t H; [reflexivity|].
  cbn [ticks]. unfold tick at 1. rewrite H. now apply IH.
Qed.

Lemma ticks_add (j k : nat) (t : Timer) : ticks (j + k) t = ticks k (ticks j t).
Proof.
  revert t; induction j as [|j IH]; intros t; [reflexivity|].
  cbn [Nat.add ticks]. apply IH.
Qed.

(** While the time is not up, a callback only counts down and redraws. *)
Lemma ticks_counting (k : nat) (t : Timer) :
  interval t = true -> (Z.of_nat k < currentTime t)%Z ->
  currentTime (ticks k t) = (currentTime t - Z.of_nat k)%Z
  /\ interval (ticks k t) = true
  /\ isRunning (ticks k t) = isRunning t
  /\ isWorkSession (ticks k t) = isWorkSession t
  /\ workTime (ticks k t) = workTime t
  /\ breakTime (ticks k t) = breakTime t
  /\ completedSessions (ticks k t) = completedSessions t
  /\ totalTime (ticks k t) = totalTime t
  /\ notified (ticks k t) = notified t
  /\ stored (ticks k t) = stored t
  /\ notificationsAvailable (ticks k t) = notificationsAvailable t
  /\ ((1 <= k)%nat -> timeDisplay (dom (ticks k t)) = clockText (currentTime t - Z.of_nat k)).
Proof.
  revert t; induction k as [|k IH]; intros t Ha Hc.
  - cbn [ticks]. repeat split; try lia; assumption.
  - cbn [ticks]. rewrite (@tick_running t Ha) by lia.
    set (t1 := updateDisplay (setCurrentTime (currentTime t - 1) t)).
    assert (Ha1 : interval t1 = true) by exact Ha.
    assert (Hc1 : (Z.of_nat k < currentTime t1)%Z) by (subst t1; timer_simpl; lia).
    destruct (IH t1 Ha1 Hc1) as (H1 & H2 & H3 & H4 & H5 & H6 & H7 & H8 & H9 & H10 & H11 & H12).
    subst t1. timer_simpl.
    repeat split; try assumption; try lia.
    intros _. destruct k as [|k'].
    + cbn [ticks]. timer_simpl. f_equal; lia.
    + rewrite H12 by lia. f_equal; lia.
Qed.

(** The callback that reaches zero completes the session. *)
Lemma ticks_completing (k : nat) (t : Timer) :
  interval t = true -> Z.of_nat k = currentTime t -> (1 <= k)%nat ->
  ticks k t
  = sessionComplete (updateDisplay (setCurrentTime 0 (ticks (k - 1) t))).
Proof.
  intros Ha Hc Hk.
  replace k with ((k - 1) + 1)%nat at 1 by lia.
  rewrite ticks_add. cbn [ticks].
  destruct (@ticks_counting (k - 1) t Ha) as (H1 & H2 & _); [lia|].
  apply tick_last; [exact H2|]. rewrite H1. lia.
Qed.


Lemma countdown_done (t : Timer) :
  interval t = true -> (1 <= currentTime t)%Z ->
  let done := ticks (Z.to_nat (currentTime t)) t in
  interval done = false
  /\ isRunning done = false
  /\ isWorkSession done = negb (isWorkSession t)
  /\ workTime done = workTime t
  /\ breakTime done = breakTime t
  /\ currentTime done = (if isWorkSession t then breakTime t else workTime t)
  /\ completedSessions done
     = (completedSessions t + if isWorkSession t then 1 else 0)%Z
  /\ totalTime done = (totalTime t + if isWorkSession t then workTime t else 0)%Z
  /\ notified done
     = notified t ++ (if notificationsAvailable t
                      then [if isWorkSession t then workDone else breakDone]
                      else [])
  /\ stored done = stored t ++ [SaveStats (completedSessions done) (totalTime done)]
  /\ notificationsAvailable done = notificationsAvailable t
  /\ timeDisplay (dom done) = clockText (currentTime done)
  /\ sessionType (dom done) = sessionText (isWorkSession done)
  /\ startBtnText (dom done) = lit "Start"
  /\ startBtnDisabled (dom done) = false
  /\ completedSessionsEl (dom done) = of_Z (completedSessions done)
  /\ totalTimeEl (dom done) = totalText (totalTime done).
Proof.
  intros Ha Hc done. subst done.
  rewrite (@ticks_completing (Z.to_nat (currentTime t)) t Ha) by lia.
  destruct (@ticks_counting (Z.to_nat (currentTime t) - 1) t Ha)
    as (_ & H2 & H3 & H4 & H5 & H6 & H7 & H8 & H9 & H10 & H11 & _); [lia|].
  rewrite sessionComplete_eq. unfold updateDisplay, setCurrentTime.
  timer_fields. rewrite H4, H5, H6, H7, H8, H9, H10, H11.
  destruct (isWorkSession t); destruct (notificationsAvailable t);
    timer_fields; repeat split; try rewrite app_nil_r; try reflexivity; lia.
Qed.

(** X16. The timer of the popup stays consistent under every sequence of
    button clicks and interval callbacks, as long as both durations are at
    least one second: it is running exactly while its interval is armed (so
    a second click on Start never arms a second interval), the remaining
    time is between one second and the duration of the current session, the
    total time is the number of completed work sessions times the work
    duration, and the popup shows the remaining time, the session kind, the
    counters and the button state of the fields. The durations never change. *)
Theorem X16_timer_stays_consistent :
  forall (es : list Event) (t : Timer),
    consistent t -> (1 <= workTime t)%Z -> (1 <= breakTime t)%Z ->
    consistent (play es t)
    /\ workTime (play es t) = workTime t
    /\ breakTime (play es t) = breakTime t.
Proof.
  induction es as [|e es IH]; intros t Hc Hw Hb;
    [split; [exact Hc | split; reflexivity]|].
  destruct (@handle_consistent e t Hc Hw Hb) as (Hc' & Hw' & Hb').
  change (play (e :: es) t) with (play es (handle e t)).
  destruct (IH (handle e t) Hc') as (H1 & H2 & H3); [lia | lia |].
  split; [exact H1|]. split; congruence.
Qed.

(** X16, from the state the constructor leaves: start, two seconds, pause,
    reset. *)
Lemma X16_timer_witness :
  consistent (construct true)
  /\ consistent (play [ClickStart; Fire; Fire; ClickPause; ClickReset] (construct true))
  /\ currentTime (play [ClickStart; Fire; Fire; ClickPause] (construct true)) = 1498%Z.
Proof.
  assert (H : consistent (construct true)).
  { unfold consistent. cbn. repeat split; lia. }
  split; [exact H|]. split; [|reflexivity].
  apply (X16_timer_stays_consistent
           [ClickStart; Fire; Fire; ClickPause; ClickReset] H); cbn; lia.
Defined.

(** X17. A running timer with [c] seconds left counts down one second per
    callback and does nothing else for the first [c - 1] callbacks. The
    [c]-th callback completes the session: the timer stops and clears its
    interval, the session kind flips and the remaining time becomes the
    duration of the new session; a completed work session adds one to the
    counter and its duration to the total, a completed break adds nothing;
    one notification is created if the API is there, the statistics are
    saved once, and the popup shows the new time with the Start button
    enabled. Callbacks after that do nothing. *)
Theorem X17_countdown_completes_the_session :
  forall (t : Timer) (k j : nat),
    interval t = true -> (1 <= currentTime t)%Z ->
    let c := Z.to_nat (currentTime t) in
    let done := ticks c t in
    ((k < c)%nat ->
     currentTime (ticks k t) = (currentTime t - Z.of_nat k)%Z
     /\ interval (ticks k t) = true
     /\ isWorkSession (ticks k t) = isWorkSession t
     /\ completedSessions (ticks k t) = completedSessions t
     /\ totalTime (ticks k t) = totalTime t
     /\ notified (ticks k t) = notified t
     /\ stored (ticks k t) = stored t)
    /\ interval done = false
    /\ isRunning done = false
    /\ isWorkSession done = negb (isWorkSession t)
    /\ currentTime done = (if isWorkSession t then breakTime t else workTime t)
    /\ completedSessions done
       = (completedSessions t + if isWorkSession t then 1 else 0)%Z
    /\ totalTime done = (totalTime t + if isWorkSession t then workTime t else 0)%Z
    /\ notified done
       = notified t ++ (if notificationsAvailable t
                        then [if isWorkSession t then workDone else breakDone]
                        else [])
    /\ stored done = stored t ++ [SaveStats (completedSessions done) (totalTime done)]
    /\ timeDisplay (dom done) = clockText (currentTime done)
    /\ startBtnText (dom done) = lit "Start"
    /\ startBtnDisabled (dom done) = false
    /\ ticks (c + j) t = done.
Proof.
  intros t k j Ha Hc c done.
  destruct (@countdown_done t Ha Hc)
    as (D1 & D2 & D3 & _ & _ & D6 & D7 & D8 & D9 & D10 & _ & D12 & _ & D14 & D15 & _).
  fold c in D1, D2, D3, D6, D7, D8, D9, D10, D12, D14, D15.
  fold done in D1, D2, D3, D6, D7, D8, D9, D10, D12, D14, D15.
  split.
  - intros Hk.
    destruct (@ticks_counting k t Ha)
      as (H1 & H2 & _ & H4 & _ & _ & H7 & H8 & H9 & H10 & _); [lia|].
    repeat split; assumption.
  - repeat (split; [assumption|]).
    rewrite ticks_add. now apply ticks_disarmed.
Qed.

(** X17, at the fresh timer started with three seconds left. *)
Lemma X17_countdown_witness :
  interval Runs.three_seconds = true
  /\ currentTime (ticks 2 Runs.three_seconds) = 1%Z
  /\ isWorkSession (ticks 3 Runs.three_seconds) = false
  /\ currentTime (ticks 3 Runs.three_seconds) = 300%Z
  /\ completedSessions (ticks 3 Runs.three_seconds) = 1%Z
  /\ ticks 10 Runs.three_seconds = ticks 3 Runs.three_seconds.
Proof.
  assert (Ha : interval Runs.three_seconds = true) by reflexivity.
  assert (Hc : (1 <= currentTime Runs.three_seconds)%Z) by (cbn; lia).
  destruct (X17_countdown_completes_the_session Runs.three_seconds 2 7 Ha Hc)
    as (Hk & _ & _ & Hw & Ht & Hd & _ & _ & _ & _ & _ & _ & Hj).
  split; [exact Ha|]. split; [apply Hk; cbn; lia|].
  split; [exact Hw|]. split; [exact Ht|]. split; [exact Hd | exact Hj].
Defined.

(** Two digits for every number below one hundred. *)
Lemma two_digits (n : Z) :
  (0 <= n < 100)%Z ->
  padStart 2 zero (of_Z n) = [(48 + Z.to_N (n / 10))%N; (48 + Z.to_N (n mod 10))%N].
Proof.
  intros H.
  assert (A : forallb
                (fun k => str_eqb (padStart 2 zero (of_Z (Z.of_nat k)))
                            [(48 + Z.to_N (Z.of_nat k / 10))%N;
                             (48 + Z.to_N (Z.of_nat k mod 10))%N])
                (seq 0 100) = true) by (vm_compute; reflexivity).
  rewrite forallb_forall in A.
  specialize (A (Z.to_nat n)). rewrite Z2Nat.id in A by lia.
  apply str_eqb_eq, A, in_seq. lia.
Qed.

Lemma digit_of (d : Z) : (0 <= d <= 9)%Z -> digit (48 + Z.to_N d)%N = Some d.
Proof.
  intros H. unfold digit.
  replace (N.leb 48 (48 + Z.to_N d) && N.leb (48 + Z.to_N d) 57)%bool with true.
  - f_equal. lia.
  - symmetry. apply andb_true_iff. split; apply N.leb_le; lia.
Qed.

(** X18. For every remaining time below one hundred minutes the popup shows
    five characters, two digits of minutes, a colon and two digits of
    seconds, and the shown text reads back as the remaining time. *)
Theorem X18_clock_text_round_trip :
  forall (c : Z),
    (0 <= c < 6000)%Z ->
    length (clockText c) = 5%nat
    /\ readClockText (clockText c) = Some c
    /\ forall t, timeDisplay (dom (updateDisplay (setCurrentTime c t))) = clockText c.
Proof.
  intros c H.
  assert (Hm : (0 <= c / 60 < 100)%Z).
  { split; [apply Z.div_pos; lia | apply Z.div_lt_upper_bound; lia]. }
  assert (Es : Z.rem c 60 = (c mod 60)%Z) by (apply Z.rem_mod_nonneg; lia).
  assert (Hs : (0 <= c mod 60 < 60)%Z) by (apply Z.mod_pos_bound; lia).
  assert (Hd : forall n, (0 <= n < 100)%Z ->
                         (0 <= n / 10 <= 9)%Z /\ (0 <= n mod 10 <= 9)%Z).
  { intros n Hn. split.
    - split; [apply Z.div_pos; lia|].
      assert (n / 10 < 10)%Z by (apply Z.div_lt_upper_bound; lia). lia.
    - pose proof (Z.mod_pos_bound n 10). lia. }
  destruct (Hd (c / 60)%Z Hm) as [Hm1 Hm0].
  destruct (Hd (c mod 60)%Z) as [Hs1 Hs0]; [lia|].
  assert (Et : clockText c
               = [(48 + Z.to_N (c / 60 / 10))%N; (48 + Z.to_N ((c / 60) mod 10))%N;
                  58%N;
                  (48 + Z.to_N (c mod 60 / 10))%N;
                  (48 + Z.to_N ((c mod 60) mod 10))%N]).
  { unfold clockText. rewrite Es, !two_digits by lia. reflexivity. }
  split; [now rewrite Et|]. split; [|reflexivity].
  rewrite Et. cbn [readClockText].
  rewrite !digit_of by assumption.
  change (N.eqb 58 58) with true. cbn iota.
  f_equal.
  pose proof (Z.div_mod (c / 60) 10). pose proof (Z.div_mod (c mod 60) 10).
  pose proof (Z.div_mod c 60). lia.
Qed.

(** X18, at 24 minutes and 59 seconds. *)
Lemma X18_clock_text_witness :
  (0 <= 1499 < 6000)%Z
  /\ clockText 1499 = lit "24:59"
  /\ readClockText (clockText 1499) = Some 1499%Z.
Proof.
  assert (H : (0 <= 1499 < 6000)%Z) by lia.
  split; [exact H|]. split; [reflexivity|].
  exact (proj1 (proj2 (X18_clock_text_round_trip H))).
Defined.

Lemma start_stopped (t : Timer) :
  isRunning t = false ->
  interval (start t) = true
  /\ isRunning (start t) = true
  /\ currentTime (start t) = currentTime t
  /\ isWorkSession (start t) = isWorkSession t
  /\ workTime (start t) = workTime t
  /\ breakTime (start t) = breakTime t
  /\ completedSessions (start t) = completedSessions t
  /\ totalTime (start t) = totalTime t
  /\ notified (start t) = notified t
  /\ stored (start t) = stored t
  /\ notificationsAvailable (start t) = notificationsAvailable t.
Proof. intros H. unfold start. rewrite H. repeat split. Qed.

(** X19. One Pomodoro cycle. From a stopped timer at the beginning of a work
    session, Start and the work duration in callbacks end the work session
    with the timer stopped at the full break duration: the break does not
    begin by itself, however many callbacks follow. A second Start and the
    break duration in callbacks bring the timer back to a stopped work
    session at the full work duration, with one more completed session and
    the work duration added to the total; the break adds nothing. *)
Theorem X19_work_then_break :
  forall (t : Timer) (j : nat),
    isRunning t = false -> isWorkSession t = true ->
    currentTime t = workTime t ->
    (1 <= workTime t)%Z -> (1 <= breakTime t)%Z ->
    let afterWork := ticks (Z.to_nat (workTime t)) (start t) in
    let afterBreak := ticks (Z.to_nat (breakTime t)) (start afterWork) in
    isRunning afterWork = false
    /\ isWorkSession afterWork = false
    /\ currentTime afterWork = breakTime t
    /\ ticks j afterWork = afterWork
    /\ isRunning afterBreak = false
    /\ isWorkSession afterBreak = true
    /\ currentTime afterBreak = workTime t
    /\ completedSessions afterBreak = (completedSessions t + 1)%Z
    /\ totalTime afterBreak = (totalTime t + workTime t)%Z
    /\ length (stored afterBreak) = (length (stored t) + 2)%nat.
Proof.
  intros t j Hr Hw Hc Hwt Hbt afterWork afterBreak.
  destruct (@start_stopped t Hr)
    as (S1 & _ & S3 & S4 & S5 & S6 & S7 & S8 & _ & S10 & _).
  assert (Hc1 : (1 <= currentTime (start t))%Z) by lia.
  pose proof (@countdown_done (start t) S1 Hc1) as D.
  rewrite S3, Hc in D. fold afterWork in D. rewrite S4, Hw in D. cbn [negb] in D.
  destruct D as (D1 & D2 & D3 & D4 & D5 & D6 & D7 & D8 & _ & D10 & _).
  destruct (@start_stopped afterWork D2)
    as (T1 & _ & T3 & T4 & T5 & T6 & T7 & T8 & _ & T10 & _).
  assert (Hc2 : (1 <= currentTime (start afterWork))%Z) by lia.
  pose proof (@countdown_done (start afterWork) T1 Hc2) as E.
  rewrite T3, D6, S6 in E. fold afterBreak in E. rewrite T4, D3 in E. cbn [negb] in E.
  destruct E as (_ & E2 & E3 & _ & _ & E6 & E7 & E8 & _ & E10 & _).
  split; [exact D2|]. split; [exact D3|]. split; [lia|].
  split; [now apply ticks_disarmed|].
  split; [exact E2|]. split; [exact E3|]. split; [lia|].
  split; [lia|]. split; [lia|].
  rewrite E10, T10, D10, S10, !length_app. simpl. lia.
Qed.

(** X19, at the timer the constructor leaves: 25 minutes of work, then 5
    minutes of break. *)
Lemma X19_work_then_break_witness :
  isRunning (construct true) = false
  /\ currentTime (ticks 1500 (start (construct true))) = 300%Z
  /\ completedSessions
       (ticks 300 (start (ticks 1500 (start (construct true))))) = 1%Z
  /\ totalTime
       (ticks 300 (start (ticks 1500 (start (construct true))))) = 1500%Z.
Proof.
  assert (Hw : (1 <= workTime (construct true))%Z) by (cbn; lia).
  assert (Hb : (1 <= breakTime (construct true))%Z) by (cbn; lia).
  destruct (X19_work_then_break (construct true) 0 eq_refl eq_refl eq_refl Hw Hb)
    as (_ & _ & H3 & _ & _ & _ & _ & H8 & H9 & _).
  split; [reflexivity|]. split; [exact H3|]. split; [exact H8 | exact H9].
Defined.

(** After the first completed work session of the default timer the popup
    reads 05:00, Break Time, 1 completed, 0h 25m. *)
Example default_timer_after_work :
  dom (ticks 1500 (start (construct true)))
  = mkDom (lit "05:00") (lit "Break Time") (lit "Start") false (lit "1") (lit "0h 25m").
Proof. vm_compute. reflexivity. Qed.

(** ** Typing target websites *)

(** X20. What either creator transmits as target websites never contains a
    comma and never starts or ends with whitespace, and there are at most
    as many entries as the input has commas, plus one. *)
Theorem X20_transmitted_patterns_are_clean :
  forall (raw : jsstring),
    Forall (fun x => ~ In comma x /\ clean x) (parseTargetWebsites raw)
    /\ (length (parseTargetWebsites raw) <= S (count_occ N.eq_dec raw comma))%nat.
Proof.
  intros raw. destruct (split_pieces comma raw) as [Hp Hl]. split.
  - apply Forall_forall. intros x Hx.
    apply parseTargetWebsites_spec in Hx as (piece & Hin & -> & _).
    split; [|apply trim_clean].
    intros Hc. apply trim_In in Hc.
    rewrite Forall_forall in Hp. exact (Hp piece Hin Hc).
  - unfold parseTargetWebsites.
    etransitivity; [apply filter_length_le|]. now rewrite length_map, Hl.
Qed.

Lemma trim_after_space (x : jsstring) : trim (32%N :: x) = trim x.
Proof. reflexivity. Qed.

Lemma parse_joined (sep : jsstring) (l : list jsstring) :
  (sep = [comma] \/ sep = [comma; 32%N]) ->
  Forall (fun x => clean x /\ x <> [] /\ ~ In comma x) l ->
  filter truthy (map trim (split comma (join sep l))) = l
  /\ (forall x rest, l = x :: rest ->
      filter truthy (map trim (split comma (32%N :: join sep l))) = l).
Proof.
  intros Hsep. induction 1 as [|x l (Hc & Hne & Hno) Hl [IH1 IH2]].
  - split; [reflexivity | discriminate].
  - assert (Ex : trim x = x) by now apply clean_trim.
    assert (Tx : truthy x = true) by now apply truthy_nonempty.
    assert (Hno' : ~ In comma (32%N :: x)).
    { simpl. intros [E|Hin]; [discriminate | contradiction]. }
    destruct l as [|y l'].
    + cbn [join]. split; [|intros _ _ _].
      * rewrite split_no_sep by assumption. cbn [map filter]. now rewrite Ex, Tx.
      * rewrite split_no_sep by assumption. cbn [map filter].
        now rewrite trim_after_space, Ex, Tx.
    + assert (Tail : filter truthy
                       (map trim
                          (split comma (match sep with
                                        | [_] => join sep (y :: l')
                                        | _ => 32%N :: join sep (y :: l')
                                        end))) = y :: l').
      { destruct Hsep as [->| ->]; [exact IH1 | now apply (IH2 y l')]. }
      assert (Shape : forall pre,
                 ~ In comma pre ->
                 split comma (pre ++ sep ++ join sep (y :: l'))
                 = pre :: split comma (match sep with
                                       | [_] => join sep (y :: l')
                                       | _ => 32%N :: join sep (y :: l')
                                       end)).
      { intros pre Hpre. destruct Hsep as [->| ->]; cbn [app];
          now apply split_app_sep. }
      change (join sep (x :: y :: l')) with (x ++ sep ++ join sep (y :: l')).
      split; [|intros _ _ _].
      * rewrite Shape by assumption. cbn [map filter]. now rewrite Ex, Tx, Tail.
      * change (32%N :: x ++ sep ++ join sep (y :: l'))
          with ((32%N :: x) ++ sep ++ join sep (y :: l')).
        rewrite Shape by assumption. cbn [map filter].
        now rewrite trim_after_space, Ex, Tx, Tail.
Qed.

(** X21. Typing a list of patterns the way the placeholder shows it gives
    back that list: if no pattern is empty, contains a comma, or starts or
    ends with whitespace, then joining the patterns with "," or with ", "
    and passing the text through the creators' parsing yields exactly the
    patterns, in order. *)
Theorem X21_joined_patterns_parse_back :
  forall (l : list jsstring),
    Forall (fun x => clean x /\ x <> [] /\ ~ In comma x) l ->
    parseTargetWebsites (join (lit ",") l) = l
    /\ parseTargetWebsites (join (lit ", ") l) = l.
Proof.
  intros l H. split.
  - apply (parse_joined (sep := lit ",")); [now left | exact H].
  - apply (parse_joined (sep := lit ", ")); [now right | exact H].
Qed.

(** X21, at the three patterns of the placeholder. *)
Lemma X21_joined_patterns_witness :
  Forall (fun x => clean x /\ x <> [] /\ ~ In comma x)
         [lit "example.com"; lit "*.google.com"; lit "https://github.com/*"]
  /\ parseTargetWebsites
       (join (lit ", ") [lit "example.com"; lit "*.google.com"; lit "https://github.com/*"])
     = [lit "example.com"; lit "*.google.com"; lit "https://github.com/*"].
Proof.
  assert (H : Forall (fun x => clean x /\ x <> [] /\ ~ In comma x)
                     [lit "example.com"; lit "*.google.com";
                      lit "https://github.com/*"]).
  { repeat constructor; try discriminate;
      cbn; intuition discriminate. }
  split; [exact H|].
  exact (proj2 (X21_joined_patterns_parse_back H)).
Defined.

(** ** The buttons and the handlers behind them *)

(** X22. No button that starts a run is enabled while the spinner is on.
    When the analyze button is enabled, a click on it in the simple creator
    sends exactly one request, and it carries the prompt, which is not
    blank. When the generate button is enabled, a click on it sends, in
    either creator, exactly one request whose [extension_type] is the
    selected type, which is not empty. *)
Theorem X22_enabled_buttons_send_one_request :
  forall (envA : Env AnalysisData) (envG : Env ExtensionData) (cb : Callback)
         (s : State),
    (isGenerating s = true -> analyzeDisabled s = true /\ generateDisabled s = true)
    /\ (analyzeDisabled s = false ->
        trim (prompt s) <> []
        /\ exists req,
             network (final (SimpleExtensionCreator.handleAnalyzePrompt envA s))
             = network s ++ [req]
             /\ sentPrompt req = Some (prompt s))
    /\ (generateDisabled s = false ->
        selectedType s <> []
        /\ (exists req,
               network (final (SimpleExtensionCreator.handleGenerateExtension envG cb s))
               = network s ++ [req]
               /\ sentExtensionType req = Some (selectedType s))
        /\ (exists req,
               network (final (ChromeExtensionCreator.handleGenerateExtension envG cb s))
               = network s ++ [req]
               /\ sentExtensionType req = Some (selectedType s))).
Proof.
  intros envA envG cb s. split; [|split].
  - intros H. unfold analyzeDisabled, generateDisabled. rewrite H.
    split; apply orb_true_r.
  - unfold analyzeDisabled. intros H. apply orb_false_iff in H as [H _].
    apply negb_false_iff in H. split; [now apply truthy_nonempty|].
    eexists. split; [now apply simple_analyze_sends | reflexivity].
  - unfold generateDisabled. intros H. apply orb_false_iff in H as [H _].
    apply negb_false_iff in H. split; [now apply truthy_nonempty|]. split.
    + eexists. split; [apply simple_generate_sends|].
      now apply generateBody_extension_type.
    + eexists. split; [apply chrome_generate_sends|].
      now apply generateBody_extension_type.
Qed.

(** X22, at step 2 with the popup type chosen. *)
Lemma X22_enabled_buttons_witness :
  generateDisabled Scenario.configured = false
  /\ analyzeDisabled Scenario.configured = false
  /\ selectedType Scenario.configured <> []
  /\ trim (prompt Scenario.configured) <> [].
Proof.
  destruct (X22_enabled_buttons_send_one_request
              Scenario.analysed Runs.generated None Scenario.configured)
    as (_ & Ha & Hg).
  split; [reflexivity|]. split; [reflexivity|].
  split; [exact (proj1 (Hg eq_refl)) | exact (proj1 (Ha eq_refl))].
Defined.
